(** * ADIS16000 driver (src/lib/ADIS16000.cpp): a shallow embedding

    The driver talks to the sensor over the Arduino SPI bus and two control
    lines.  Every driver function is embedded as a state-passing function on
    a [world]: the levels of the pins, the state of the SPI slave, and the
    chronological log of everything that happened on the bus.

    Target: the 8-bit Atmel boards named in the header of the source, so
    [int] is 16 bits wide and [float] and [double] are both IEEE binary32. *)

From Stdlib Require Import ZArith List Lia Bool.
From Stdlib Require Import Floats.SpecFloat.
From stdpp Require Import base gmap list.

Local Open Scope Z_scope.

(** ** Machine integers of the target, as [Z] with the wrap-around written out *)

Module Int.

(** Conversion to [uint8_t]. *)
Definition u8 (z : Z) : Z := z mod 256.

(** Conversion to [uint16_t] (and to [unsigned int]). *)
Definition u16 (z : Z) : Z := z mod 65536.

(** Conversion to [int16_t] (and to [int]): two's complement wrap. *)
Definition s16 (z : Z) : Z := (z + 32768) mod 65536 - 32768.

End Int.

(** ** The outside world: pins, the SPI slave, the bus log *)

Inductive level := LOW | HIGH.

#[global] Instance level_eq_dec : EqDecision level.
Proof. solve_decision. Defined.

(** What the board does that is visible outside the processor, in the order
    it happens.  [Transfer mosi miso] is one call of [SPI.transfer]: the byte
    shifted out and the byte shifted in. *)
Inductive event :=
| SpiBegin
| SpiEnd
| SetBitOrder_MSBFIRST
| SetClockDivider_DIV8
| SetDataMode_MODE3
| PinMode_OUTPUT (pin : Z)
| DigitalWrite (pin : Z) (l : level)
| Transfer (mosi miso : Z)
| DelayMicroseconds (us : Z)
| Delay (ms : Z).

#[global] Instance event_eq_dec : EqDecision event.
Proof. solve_decision. Defined.

(** Ghost record of the calls of the two register primitives, kept beside the
    bus log so that "how many register writes, in which order" can be stated.
    It has no influence on pins, slave or bus. *)
Inductive call :=
| RegWrite (regAddr regData : Z)
| RegRead (regAddr : Z) (dataOut : Z).

#[global] Instance call_eq_dec : EqDecision call.
Proof. solve_decision. Defined.

(** The device at the other end of the bus.  It sees the control lines move
    and answers each byte shifted out with a byte shifted in. *)
Class Slave (D : Type) := {
  slave_pin : Z -> level -> D -> D;
  slave_transfer : Z -> D -> Z * D
}.

Record world (D : Type) := World {
  pins : gmap Z level;
  slave : D;
  bus : list event;
  calls : list call
}.
Arguments World {D}.
Arguments pins {D}.
Arguments slave {D}.
Arguments bus {D}.
Arguments calls {D}.

(** ** A small state monad over the world *)

Definition M (D A : Type) : Type := world D -> A * world D.

Definition ret {D A} (a : A) : M D A := fun w => (a, w).

Definition bind {D A B} (m : M D A) (k : A -> M D B) : M D B :=
  fun w => let (a, w') := m w in k a w'.

Declare Scope drv_scope.
Delimit Scope drv_scope with drv.
Notation "'let*' x := m 'in' k" := (bind m (fun x => k))
  (at level 10, x name, m at level 100, k at level 200) : drv_scope.
Notation "m ;; k" := (bind m (fun _ => k))
  (at level 100, k at level 200, right associativity) : drv_scope.

Definition emit {D} (e : event) : M D unit :=
  fun w => (tt, World (pins w) (slave w) (bus w ++ [e]) (calls w)).

Definition record_call {D} (c : call) : M D unit :=
  fun w => (tt, World (pins w) (slave w) (bus w) (calls w ++ [c])).

(** ** The Arduino core functions the driver calls *)

Section Arduino.
Context {D : Type} `{Slave D}.

Definition pinMode_OUTPUT (pin : Z) : M D unit := emit (PinMode_OUTPUT pin).

Definition digitalWrite (pin : Z) (l : level) : M D unit :=
  fun w => (tt, World (<[pin := l]> (pins w)) (slave_pin pin l (slave w))
                      (bus w ++ [DigitalWrite pin l]) (calls w)).

(** [SPI.transfer]: takes and returns a [uint8_t]. *)
Definition SPI_transfer (b : Z) : M D Z :=
  fun w => let r := Int.u8 (fst (slave_transfer (Int.u8 b) (slave w))) in
           let d := snd (slave_transfer (Int.u8 b) (slave w)) in
           (r, World (pins w) d (bus w ++ [Transfer (Int.u8 b) r]) (calls w)).

Definition delayMicroseconds (us : Z) : M D unit := emit (DelayMicroseconds us).
Definition delay (ms : Z) : M D unit := emit (Delay ms).

End Arduino.

(** ** The driver *)

(** The object: the two private members set by the constructor. *)
Record ADIS16000 := { _CS : Z; _RST : Z }.

(** The register addresses come from the header ADIS16000.h, which is not part
    of the sources at hand; they are taken as parameters. *)
Class RegisterMap := {
  PAGE_ID : Z;
  GLOB_CMD_G : Z;
  GLOB_CMD_S : Z;
  CMD_DATA : Z;
  BUF_PNTR : Z;
  X_BUF : Z;
  Y_BUF : Z;
  GPO_CTRL : Z;
  UPDAT_INT : Z;
  INT_SCL : Z
}.

(** A local array of [int16_t]: [None] is an element never assigned.  A store
    outside the array is undefined behaviour in C++; [store] reports it
    instead of guessing. *)
Definition store (buffer : list (option Z)) (i : Z) (v : Z)
  : option (list (option Z)) :=
  if (0 <=? i) && (i <? Z.of_nat (length buffer))
  then Some (<[Z.to_nat i := Some v]> buffer)
  else None.

(** How a function that fills a local array ends. *)
Inductive outcome (A : Type) :=
| Returned (a : A)
| OutOfBounds (index : Z).
Arguments Returned {A}.
Arguments OutOfBounds {A}.

(** Lines 126-128 of [regWrite]: the three [uint16_t] locals, as functions of
    the (already converted) arguments. *)
Definition addr (regAddr : Z) : Z :=
  Int.u16 (Z.shiftl (Z.lor (Z.land regAddr 0x7F) 0x80) 8).

Definition lowWord (regAddr regData : Z) : Z :=
  Int.u16 (Z.lor (addr regAddr) (Z.land regData 0xFF)).

Definition highWord (regAddr regData : Z) : Z :=
  Int.u16 (Z.lor (Z.lor (addr regAddr) 0x100)
                 (Z.land (Z.shiftr regData 8) 0xFF)).

Section Driver.
Context {D : Type} `{Slave D} `{RegisterMap}.
Variable this : ADIS16000.

Local Open Scope drv_scope.

(** Lines 71-76. *)
Definition configSPI : M D Z :=
  emit SetBitOrder_MSBFIRST ;;
  emit SetClockDivider_DIV8 ;;
  emit SetDataMode_MODE3 ;;
  ret 1.

(** Lines 58-64.  [ms] is a [uint8_t]. *)
Definition resetDUT (ms : Z) : M D Z :=
  let ms := Int.u8 ms in
  digitalWrite this.(_RST) LOW ;;
  delay 100 ;;
  digitalWrite this.(_RST) HIGH ;;
  delay ms ;;
  ret 1.

(** Lines 84-114 (the DEBUG trace is left out). *)
Definition regRead (regAddr : Z) : M D Z :=
  let regAddr := Int.u8 regAddr in
  digitalWrite this.(_CS) LOW ;;
  SPI_transfer regAddr ;;
  SPI_transfer 0x00 ;;
  digitalWrite this.(_CS) HIGH ;;
  delayMicroseconds 15 ;;
  digitalWrite this.(_CS) LOW ;;
  let* _msbData := SPI_transfer 0x00 in
  let* _lsbData := SPI_transfer 0x00 in
  digitalWrite this.(_CS) HIGH ;;
  delayMicroseconds 15 ;;
  let _dataOut := Int.s16 (Z.lor (Z.shiftl _msbData 8) (Z.land _lsbData 0xFF)) in
  record_call (RegRead regAddr _dataOut) ;;
  ret _dataOut.

(** Lines 123-144 (the DEBUG trace is left out). *)
Definition regWrite (regAddr regData : Z) : M D Z :=
  let regAddr := Int.u8 regAddr in
  let regData := Int.u16 regData in
  let lowWord := lowWord regAddr regData in
  let highWord := highWord regAddr regData in
  digitalWrite this.(_CS) LOW ;;
  SPI_transfer (Int.u8 lowWord) ;;
  SPI_transfer (Int.u8 highWord) ;;
  digitalWrite this.(_CS) HIGH ;;
  delayMicroseconds 25 ;;
  record_call (RegWrite regAddr regData) ;;
  ret 1.

(** Lines 146-151 (written in the source without the class qualifier). *)
Definition addSensor (sensorAddr : Z) : M D Z :=
  let sensorAddr := Int.u8 sensorAddr in
  regWrite GLOB_CMD_G 0x01 ;;
  delayMicroseconds 500 ;;
  regWrite CMD_DATA sensorAddr ;;
  ret 1.

(** Lines 153-157. *)
Definition removeSensor (sensorAddr : Z) : M D Z :=
  let sensorAddr := Int.u8 sensorAddr in
  regWrite CMD_DATA sensorAddr ;;
  regWrite GLOB_CMD_G 0x100 ;;
  ret 1.

(** Lines 159-163. *)
Definition saveGatewaySettings : M D Z :=
  regWrite PAGE_ID 0x00 ;;
  regWrite GLOB_CMD_G 0x40 ;;
  ret 1.

(** Lines 165-171. *)
Definition saveSensorSettings (sensorAddr : Z) : M D Z :=
  let sensorAddr := Int.u8 sensorAddr in
  regWrite PAGE_ID sensorAddr ;;
  regWrite GLOB_CMD_S 0x40 ;;
  regWrite PAGE_ID 0x00 ;;
  regWrite GLOB_CMD_G 0x02 ;;
  ret 1.

(** Lines 179-182, the loop of [readFFTBuffer].  The source line reads
    [for (int i = 0; i < 511, i++)] and its body assigns to [bufferx] and
    [buffery], names that are declared nowhere.  The loop is embedded as the
    evident [for (int i = 0; i < 511; i++)], and both names as the one array
    the function declares and returns, [buffer].  (Were the comma expression
    taken as the guard, its value [i++] would be 0 at once and the body would
    never run.)  [n] counts the iterations still to run. *)
Fixpoint readFFTBuffer_loop (n : nat) (i : Z) (buffer : list (option Z))
  : M D (outcome (list (option Z))) :=
  match n with
  | O => ret (Returned buffer)
  | S n' =>
      let* x := regRead X_BUF in
      match store buffer i x with
      | None => ret (OutOfBounds i)
      | Some buffer =>
          let* y := regRead Y_BUF in
          match store buffer (i + 256) y with
          | None => ret (OutOfBounds (i + 256))
          | Some buffer => readFFTBuffer_loop n' (i + 1) buffer
          end
      end
  end.

(** Lines 173-184. *)
Definition readFFTBuffer (sensorAddr : Z) : M D (outcome (list (option Z))) :=
  let sensorAddr := Int.u8 sensorAddr in
  let buffer := replicate 512 None in
  regWrite PAGE_ID sensorAddr ;;
  regWrite BUF_PNTR 0x00 ;;
  regWrite GLOB_CMD_S 0x800 ;;
  regWrite GLOB_CMD_G 0x2 ;;
  readFFTBuffer_loop 511 0 buffer.

(** Lines 186-193. *)
Definition readFFT (sample sensorAddr : Z) : M D (outcome (list (option Z))) :=
  let sample := Int.u8 sample in
  let sensorAddr := Int.u8 sensorAddr in
  let buffer := replicate 2 None in
  regWrite PAGE_ID sensorAddr ;;
  regWrite BUF_PNTR sample ;;
  let* x := regRead X_BUF in
  match store buffer 1 x with
  | None => ret (OutOfBounds 1)
  | Some buffer =>
      let* y := regRead Y_BUF in
      match store buffer 2 y with
      | None => ret (OutOfBounds 2)
      | Some buffer => ret (Returned buffer)
      end
  end.

(** Lines 195-209.  Line 203 reads [regWrite(GPO,CTRL, 0x20)]; it is embedded
    as the write to [GPO_CTRL] that line 198 makes.  The last test is
    [dio != 1 || 2], in which [2] stands for true.  [None] is the end of the
    function reached without a [return]. *)
Definition setDataReady (dio : Z) : M D (option Z) :=
  let dio := Int.u8 dio in
  regWrite PAGE_ID 0x00 ;;
  if dio =? 1 then
    regWrite GPO_CTRL 0x08 ;;
    ret (Some dio)
  else if dio =? 2 then
    regWrite GPO_CTRL 0x20 ;;
    ret (Some dio)
  else if negb (dio =? 1) || negb (2 =? 0) then
    ret (Some 0)
  else
    ret None.

(** Lines 211-217. *)
Definition setPeriodicMode (interval scalefactor sensorAddr : Z) : M D Z :=
  let interval := Int.u16 interval in
  let scalefactor := Int.u8 scalefactor in
  let sensorAddr := Int.u8 sensorAddr in
  regWrite PAGE_ID sensorAddr ;;
  regWrite UPDAT_INT interval ;;
  regWrite INT_SCL scalefactor ;;
  regWrite GLOB_CMD_S 0x800 ;;
  ret 1.

End Driver.

(** Lines 33-45, the constructor. *)
Definition ADIS16000_new {D : Type} `{Slave D} (CS RST : Z) : M D ADIS16000 :=
  (let this := {| _CS := Int.s16 CS; _RST := Int.s16 RST |} in
   emit SpiBegin ;;
   configSPI ;;
   pinMode_OUTPUT this.(_CS) ;;
   pinMode_OUTPUT this.(_RST) ;;
   digitalWrite this.(_CS) HIGH ;;
   digitalWrite this.(_RST) HIGH ;;
   ret this)%drv.

(** Lines 50-53, the destructor. *)
Definition ADIS16000_delete {D : Type} : M D unit := emit SpiEnd.

(** ** Floating point of the target: IEEE binary32 *)

Module F32.

Definition prec : Z := 24.
Definition emax : Z := 128.

Definition zero : spec_float := S754_zero false.

(** Conversion of an integer to floating point (round to nearest even). *)
Definition of_int (z : Z) : spec_float := binary_normalize prec emax z 0 false.

(** The decimal literal [n / d] of the source text, correctly rounded. *)
Definition lit (n d : Z) : spec_float := SFdiv prec emax (of_int n) (of_int d).

Definition mul : spec_float -> spec_float -> spec_float := SFmul prec emax.

(** Conversion of a floating value to [int]: the fraction is discarded.
    (Out of the range of [int], and on infinities and NaN, C++ leaves the
    result undefined; every value converted below lies strictly between 0
    and 1.) *)
Definition to_int (f : spec_float) : Z :=
  match f with
  | S754_finite s m e =>
      let magnitude :=
        if 0 <=? e then Z.pos m * 2 ^ e else Z.pos m / 2 ^ (- e) in
      Int.s16 (if s then - magnitude else magnitude)
  | _ => 0
  end.

Definition negative (f : spec_float) : bool := SFltb f zero.

End F32.

(** ** The scaling functions *)

(** Lines 221-226, repeated word for word at 250-255, 279-284 and 291-296.
    The literals [0x8000] and [0xFFFF] do not fit the 16-bit [int], so they
    are [unsigned int] and the arithmetic is done modulo 65536. *)
Definition signedData (sensorData : Z) : Z :=
  let isNeg := Int.s16 (Z.land (Int.u16 sensorData) 0x8000) in
  if Int.u16 isNeg =? 0x8000
  then Int.s16 (Int.u16 (Int.u16 sensorData - 0xFFFF))
  else sensorData.

(** Lines 219-246.  [lsbrange] is declared [int], so each constant is
    converted to [int] when it is assigned, and the product is an [int]. *)
Definition scaleTime (sensorData gRange : Z) : spec_float :=
  let sensorData := Int.s16 sensorData in
  let gRange := Int.s16 gRange in
  let lsbrange :=
    match gRange with
    | 1 => F32.to_int (F32.lit 305 10000)
    | 5 => F32.to_int (F32.lit 1526 10000)
    | 10 => F32.to_int (F32.lit 3052 10000)
    | 20 => F32.to_int (F32.lit 6104 10000)
    | _ => F32.to_int (F32.lit 305 10000)
    end in
  let finalData := F32.of_int (Int.s16 (signedData sensorData * lsbrange)) in
  finalData.

(** Lines 248-275. *)
Definition scaleFFT (sensorData gRange : Z) : spec_float :=
  let sensorData := Int.s16 sensorData in
  let gRange := Int.s16 gRange in
  let lsbrange :=
    match gRange with
    | 1 => F32.to_int (F32.lit 153 10000)
    | 5 => F32.to_int (F32.lit 763 10000)
    | 10 => F32.to_int (F32.lit 1526 10000)
    | 20 => F32.to_int (F32.lit 3052 10000)
    | _ => F32.to_int (F32.lit 153 10000)
    end in
  let finalData := F32.of_int (Int.s16 (signedData sensorData * lsbrange)) in
  finalData.

(** Lines 277-287. *)
Definition scaleSupply (sensorData : Z) : spec_float :=
  let sensorData := Int.s16 sensorData in
  let finalData :=
    F32.mul (F32.of_int (signedData sensorData)) (F32.lit 44 100000) in
  finalData.

(** Lines 289-299. *)
Definition scaleTemp (sensorData : Z) : spec_float :=
  let sensorData := Int.s16 sensorData in
  let finalData :=
    F32.mul (F32.of_int (signedData sensorData)) (F32.lit 815 10000) in
  finalData.

(** *** The scaling of time and FFT samples as the specification words it

    "multiply the sign-adjusted value by a range-dependent constant selected
    by a range selector of {1, 5, 10, 20}, with a default constant matching
    range 1 when the selector is unrecognized". *)
Module Spec.

Definition time_constant (gRange : Z) : spec_float :=
  match gRange with
  | 1 => F32.lit 305 10000
  | 5 => F32.lit 1526 10000
  | 10 => F32.lit 3052 10000
  | 20 => F32.lit 6104 10000
  | _ => F32.lit 305 10000
  end.

Definition fft_constant (gRange : Z) : spec_float :=
  match gRange with
  | 1 => F32.lit 153 10000
  | 5 => F32.lit 763 10000
  | 10 => F32.lit 1526 10000
  | 20 => F32.lit 3052 10000
  | _ => F32.lit 153 10000
  end.

Definition scaleTime (sensorData gRange : Z) : spec_float :=
  F32.mul (F32.of_int (signedData (Int.s16 sensorData)))
          (time_constant (Int.s16 gRange)).

Definition scaleFFT (sensorData gRange : Z) : spec_float :=
  F32.mul (F32.of_int (signedData (Int.s16 sensorData)))
          (fft_constant (Int.s16 gRange)).

End Spec.

(** ** A simulated sensor: a register file behind the bus *)

Module Mock.

(** Modelled from the spec: the device that answers on the bus is not part of
    the sources.  This one follows the bus protocol of the specification
    ("Register write frame: two 16-bit words, each address (7 bits, write-flag
    set, +0/+1 for low/high) | 8 bits data, transmitted low-byte-then-high-byte
    per word, bracketed by a single chip-select assertion per register write,
    or per read phase") and echoes writes into a register file of bytes:
    - a frame of four bytes [d0; a0; d1; a1] whose address bytes carry the
      write flag stores [d0] at [a0] and [d1] at [a1];
    - a frame of two bytes whose first byte has no write flag selects that
      register for reading;
    - in the frame after such a selection the device shifts out the byte at
      address + 1 and then the byte at the address (most significant first). *)
Record device := Device {
  cs_line : Z;
  regs : gmap Z Z;
  frame : list Z;
  selected_reg : option Z;
  shift_out : list Z
}.

Definition reg (d : device) (a : Z) : Z := default 0 (regs d !! a).

Definition write_flag (b : Z) : bool := Z.testbit b 7.

Definition end_of_frame (d : device) : device :=
  match shift_out d, frame d with
  | [], [d0; a0; d1; a1] =>
      if write_flag a0 && write_flag a1
      then Device (cs_line d)
                  (<[Z.land a1 0x7F := d1]> (<[Z.land a0 0x7F := d0]> (regs d)))
                  [] None []
      else Device (cs_line d) (regs d) [] None []
  | [], [a; _] =>
      if write_flag a
      then Device (cs_line d) (regs d) [] None []
      else Device (cs_line d) (regs d) [] (Some a) []
  | _, _ => Device (cs_line d) (regs d) [] None []
  end.

Definition start_of_frame (d : device) : device :=
  match selected_reg d with
  | Some a => Device (cs_line d) (regs d) [] None [reg d (a + 1); reg d a]
  | None => Device (cs_line d) (regs d) [] None []
  end.

#[global] Instance device_slave : Slave device := {
  slave_pin pin l d :=
    if pin =? cs_line d
    then match l with LOW => start_of_frame d | HIGH => end_of_frame d end
    else d;
  slave_transfer mosi d :=
    match shift_out d with
    | [] => (0, Device (cs_line d) (regs d) (frame d ++ [mosi]) (selected_reg d) [])
    | b :: rest => (b, Device (cs_line d) (regs d) (frame d) (selected_reg d) rest)
    end
}.

(** A register map to run the driver on: the header is not at hand, so these
    are stand-ins, distinct even addresses below 0x80. *)
#[global] Instance registers : RegisterMap := {
  PAGE_ID := 0x00;
  GLOB_CMD_G := 0x02;
  GLOB_CMD_S := 0x3E;
  CMD_DATA := 0x04;
  BUF_PNTR := 0x10;
  X_BUF := 0x12;
  Y_BUF := 0x14;
  GPO_CTRL := 0x28;
  UPDAT_INT := 0x1E;
  INT_SCL := 0x20
}.

Definition CS : Z := 10.
Definition RST : Z := 9.

(** Power-up: an empty register file (every register reads 0), nothing on
    the bus yet. *)
Definition power_up : world device :=
  World ∅ (Device CS ∅ [] None []) [] [].

(** The driver object and the world right after its construction. *)
Definition driver : ADIS16000 := fst (ADIS16000_new CS RST power_up).
Definition ready : world device := snd (ADIS16000_new CS RST power_up).

(** The register write as the specification words it: both words go out,
    each as low byte then high byte, in one chip-select pulse. *)
Definition regWrite_spec (this : ADIS16000) (regAddr regData : Z)
  : M device Z :=
  (let regAddr := Int.u8 regAddr in
   let regData := Int.u16 regData in
   let lowWord :=
     Z.lor (Z.shiftl (Z.lor (Z.land regAddr 0x7F) 0x80) 8)
           (Z.land regData 0xFF) in
   let highWord :=
     Z.lor (Z.shiftl (Z.lor (Z.land (regAddr + 1) 0x7F) 0x80) 8)
           (Z.land (Z.shiftr regData 8) 0xFF) in
   digitalWrite this.(_CS) LOW ;;
   SPI_transfer (Int.u8 lowWord) ;;
   SPI_transfer (Int.u8 (Z.shiftr lowWord 8)) ;;
   SPI_transfer (Int.u8 highWord) ;;
   SPI_transfer (Int.u8 (Z.shiftr highWord 8)) ;;
   digitalWrite this.(_CS) HIGH ;;
   delayMicroseconds 25 ;;
   ret 1)%drv.

End Mock.

(** ** The driver's operations, as a caller invokes them *)

Inductive operation :=
| Op_resetDUT (ms : Z)
| Op_configSPI
| Op_regRead (regAddr : Z)
| Op_regWrite (regAddr regData : Z)
| Op_addSensor (sensorAddr : Z)
| Op_removeSensor (sensorAddr : Z)
| Op_saveGatewaySettings
| Op_saveSensorSettings (sensorAddr : Z)
| Op_readFFTBuffer (sensorAddr : Z)
| Op_readFFT (sample sensorAddr : Z)
| Op_setDataReady (dio : Z)
| Op_setPeriodicMode (interval scalefactor sensorAddr : Z).

Section Operations.
Context {D : Type} `{Slave D} `{RegisterMap}.
Variable this : ADIS16000.

Local Open Scope drv_scope.

(** One call, its result dropped. *)
Definition perform (op : operation) : M D unit :=
  match op with
  | Op_resetDUT ms => resetDUT this ms ;; ret tt
  | Op_configSPI => configSPI ;; ret tt
  | Op_regRead regAddr => regRead this regAddr ;; ret tt
  | Op_regWrite regAddr regData => regWrite this regAddr regData ;; ret tt
  | Op_addSensor sensorAddr => addSensor this sensorAddr ;; ret tt
  | Op_removeSensor sensorAddr => removeSensor this sensorAddr ;; ret tt
  | Op_saveGatewaySettings => saveGatewaySettings this ;; ret tt
  | Op_saveSensorSettings sensorAddr =>
      saveSensorSettings this sensorAddr ;; ret tt
  | Op_readFFTBuffer sensorAddr => readFFTBuffer this sensorAddr ;; ret tt
  | Op_readFFT sample sensorAddr => readFFT this sample sensorAddr ;; ret tt
  | Op_setDataReady dio => setDataReady this dio ;; ret tt
  | Op_setPeriodicMode interval scalefactor sensorAddr =>
      setPeriodicMode this interval scalefactor sensorAddr ;; ret tt
  end.

(** A caller's session: calls one after the other. *)
Fixpoint perform_all (ops : list operation) : M D unit :=
  match ops with
  | [] => ret tt
  | op :: ops' => perform op ;; perform_all ops'
  end.

End Operations.

(** ** Reading a bus log: the chip-select discipline *)

(** Where the chip-select line stands while a log is read from left to right:
    high, or low with [n] bytes exchanged since it went low. *)
Inductive cs_state :=
| Idle
| Asserted (n : nat).

(** One event.  [None]: the discipline is broken -- a byte exchanged with the
    line high, the line released after other than two bytes, or anything but
    an exchange while the line is low. *)
Definition cs_step (cs : Z) (st : cs_state) (e : event) : option cs_state :=
  match st, e with
  | Idle, DigitalWrite pin LOW => Some (if pin =? cs then Asserted 0 else Idle)
  | Idle, Transfer _ _ => None
  | Idle, _ => Some Idle
  | Asserted n, Transfer _ _ => Some (Asserted (S n))
  | Asserted (S (S O)), DigitalWrite pin HIGH =>
      if pin =? cs then Some Idle else None
  | Asserted _, _ => None
  end.

Fixpoint cs_scan (cs : Z) (st : cs_state) (log : list event)
  : option cs_state :=
  match log with
  | [] => Some st
  | e :: log' =>
      match cs_step cs st e with
      | Some st' => cs_scan cs st' log'
      | None => None
      end
  end.

(** Every assertion of chip-select in [log] brackets exactly one two-byte
    transaction, and the line is high at the end. *)
Definition one_transaction_per_pulse (cs : Z) (log : list event) : bool :=
  match cs_scan cs Idle log with
  | Some Idle => true
  | _ => false
  end.

(** ** Counting in the record of calls *)

Definition is_RegWrite (c : call) : bool :=
  match c with RegWrite _ _ => true | RegRead _ _ => false end.

Definition is_RegRead (c : call) : bool :=
  match c with RegWrite _ _ => false | RegRead _ _ => true end.

Definition count_writes (cs : list call) : nat := length (List.filter is_RegWrite cs).
Definition count_reads (cs : list call) : nat := length (List.filter is_RegRead cs).

(** The bytes shifted out in a log, in order. *)
Definition bytes_out (log : list event) : list Z :=
  omap (fun e => match e with Transfer mosi _ => Some mosi | _ => None end) log.

(** [lo; lo + 1; ...], [n] numbers. *)
Fixpoint zrange (n : nat) (lo : Z) : list Z :=
  match n with
  | O => []
  | S n' => lo :: zrange n' (lo + 1)
  end.

(** The product of a constant with each of -1, ..., -32767 is below zero:
    checked by running the binary32 multiplication on all of them. *)
Definition all_products_negative (c : spec_float) : bool :=
  forallb (fun k => F32.negative (F32.mul (F32.of_int (- k)) c))
          (zrange (Z.to_nat 32767) 1).

(** What it is for a driver function to respect the chip-select line [cs]:
    if the line was high before, it is high after; if the function drove the
    line low at all, the line is high after; and, when [strict], the part of
    the bus log it adds obeys the discipline read by [cs_scan]. *)
Definition disciplined {D A : Type} (strict : bool) (cs : Z) (m : M D A)
  : Prop :=
  forall w : world D, exists t : list event,
    bus (snd (m w)) = bus w ++ t
    /\ (strict = true -> cs_scan cs Idle t = Some Idle)
    /\ (pins w !! cs = Some HIGH -> pins (snd (m w)) !! cs = Some HIGH)
    /\ (In (DigitalWrite cs LOW) t -> pins (snd (m w)) !! cs = Some HIGH).

(** ** Further readings of a run: waiting time, pins, register map *)

(** The waits a bus log asks for, added up, in microseconds. *)
Definition wait_of (e : event) : Z :=
  match e with
  | DelayMicroseconds us => us
  | Delay ms => 1000 * ms
  | _ => 0
  end.

Definition delay_total (log : list event) : Z :=
  fold_right (fun e acc => wait_of e + acc) 0 log.

(** A driver function that adds waits of [us] microseconds in all. *)
Definition waits {D A : Type} (us : Z) (m : M D A) : Prop :=
  forall w : world D,
    delay_total (bus (snd (m w))) = delay_total (bus w) + us.

(** A driver function that leaves high every line it finds high. *)
Definition keeps_high {D A : Type} (pin : Z) (m : M D A) : Prop :=
  forall w : world D,
    pins w !! pin = Some HIGH -> pins (snd (m w)) !! pin = Some HIGH.

(** Two worlds the device and an observer of the board cannot tell apart:
    only the record of calls may differ. *)
Definition same_outside {D : Type} (w1 w2 : world D) : Prop :=
  pins w1 = pins w2 /\ slave w1 = slave w2 /\ bus w1 = bus w2.

(** Two driver functions that act alike on the outside and return alike. *)
Definition alike {D A : Type} (m1 m2 : M D A) : Prop :=
  forall w1 w2 : world D,
    same_outside w1 w2 ->
    fst (m1 w1) = fst (m2 w2) /\ same_outside (snd (m1 w1)) (snd (m2 w2)).

(** The operations that read the X and Y buffer registers, the only ones that
    pass a register address of the register map to [regRead]. *)
Definition reads_buffers (op : operation) : bool :=
  match op with
  | Op_readFFTBuffer _ | Op_readFFT _ _ => true
  | _ => false
  end.

(** Neither an infinity nor a NaN. *)
Definition finite_float (f : spec_float) : bool :=
  match f with
  | S754_zero _ | S754_finite _ _ _ => true
  | S754_infinity _ | S754_nan => false
  end.

Definition positive_float (f : spec_float) : bool := SFltb F32.zero f.

(** The product of a constant with each of 1, ..., 32767 is above zero, and
    with each of -32767, ..., 32767 it is finite: checked by running the
    binary32 multiplication on all of them. *)
Definition all_products_positive (c : spec_float) : bool :=
  forallb (fun k => positive_float (F32.mul (F32.of_int k) c))
          (zrange (Z.to_nat 32767) 1).

Definition all_products_finite (c : spec_float) : bool :=
  forallb (fun k => finite_float (F32.mul (F32.of_int k) c))
          (zrange (Z.to_nat 65535) (-32767)).

(** ** Facts about the machine integers *)

Module IntFacts.
Import Int.

Lemma u8_range z : 0 <= u8 z < 256.
Proof. unfold u8. apply Z.mod_pos_bound. lia. Qed.

Lemma u16_range z : 0 <= u16 z < 65536.
Proof. unfold u16. apply Z.mod_pos_bound. lia. Qed.

Lemma s16_range z : -32768 <= s16 z < 32768.
Proof. unfold s16. pose proof (Z.mod_pos_bound (z + 32768) 65536). lia. Qed.

Lemma u8_small z : 0 <= z < 256 -> u8 z = z.
Proof. intros H. unfold u8. apply Z.mod_small. exact H. Qed.

Lemma u16_small z : 0 <= z < 65536 -> u16 z = z.
Proof. intros H. unfold u16. apply Z.mod_small. exact H. Qed.

Lemma s16_small z : -32768 <= z < 32768 -> s16 z = z.
Proof. intros H. unfold s16. rewrite Z.mod_small; lia. Qed.

Lemma u8_idem z : u8 (u8 z) = u8 z.
Proof. apply u8_small, u8_range. Qed.

Lemma u16_idem z : u16 (u16 z) = u16 z.
Proof. apply u16_small, u16_range. Qed.

Lemma u16_s16 z : u16 (s16 z) = u16 z.
Proof.
  unfold u16, s16.
  rewrite <- Zminus_mod_idemp_l, Z.mod_mod by lia.
  rewrite Zminus_mod_idemp_l. f_equal. lia.
Qed.

Lemma u8_u16 z : u8 (u16 z) = u8 z.
Proof.
  unfold u8, u16. pose proof (Z.div_mod z 65536 ltac:(lia)) as E.
  rewrite E at 2. replace (65536 * (z / 65536) + z mod 65536)
    with (z mod 65536 + (256 * (z / 65536)) * 256) by lia.
  now rewrite Z.mod_add by lia.
Qed.

End IntFacts.

(** ** Bit-level facts about the words packed by [regWrite] *)

Lemma u8_land z : Int.u8 z = Z.land z 0xFF.
Proof. unfold Int.u8. change 0xFF with (Z.ones 8). now rewrite Z.land_ones. Qed.

Lemma u16_land z : Int.u16 z = Z.land z 0xFFFF.
Proof. unfold Int.u16. change 0xFFFF with (Z.ones 16). now rewrite Z.land_ones. Qed.

Lemma testbit_0xFF n : 0 <= n -> Z.testbit 0xFF n = (n <? 8).
Proof.
  intros Hn. change 0xFF with (Z.ones 8).
  destruct (n <? 8) eqn:E.
  - apply Z.ones_spec_low. lia.
  - apply Z.ones_spec_high. lia.
Qed.

Lemma testbit_0xFFFF n : 0 <= n -> Z.testbit 0xFFFF n = (n <? 16).
Proof.
  intros Hn. change 0xFFFF with (Z.ones 16).
  destruct (n <? 16) eqn:E.
  - apply Z.ones_spec_low. lia.
  - apply Z.ones_spec_high. lia.
Qed.

(** The low byte of a word whose bits 0-7 hold [d] and whose other bits come
    from something shifted left by 8 is [d]: the shifted part is cut off. *)
Lemma low_byte_of_word hi d :
  Int.u8 (Int.u16 (Z.lor (Int.u16 (Z.shiftl hi 8)) (Z.land d 0xFF))) = Int.u8 d.
Proof.
  rewrite !u8_land, !u16_land.
  apply Z.bits_inj'. intros n Hn.
  rewrite !Z.land_spec, Z.lor_spec, !Z.land_spec, testbit_0xFF, testbit_0xFFFF by lia.
  destruct (n <? 8) eqn:E8.
  - rewrite Z.shiftl_spec_low by lia.
    replace (n <? 16) with true by lia. simpl.
    now rewrite !andb_true_r.
  - now rewrite !andb_false_r.
Qed.

Lemma low_byte_of_high_word hi d :
  Int.u8 (Int.u16 (Z.lor (Z.lor (Int.u16 (Z.shiftl hi 8)) 0x100) (Z.land d 0xFF)))
  = Int.u8 d.
Proof.
  rewrite !u8_land, !u16_land.
  apply Z.bits_inj'. intros n Hn.
  rewrite !Z.land_spec, !Z.lor_spec, !Z.land_spec, testbit_0xFF, testbit_0xFFFF by lia.
  destruct (n <? 8) eqn:E8.
  - rewrite Z.shiftl_spec_low by lia.
    replace (n <? 16) with true by lia.
    change 0x100 with (Z.shiftl 1 8). rewrite Z.shiftl_spec_low by lia. simpl.
    now rewrite !andb_true_r, ?orb_false_r.
  - now rewrite !andb_false_r.
Qed.

(** Two bytes side by side make the word [msb * 256 + lsb]. *)
Lemma word_of_bytes msb lsb :
  0 <= msb < 256 -> 0 <= lsb < 256 ->
  Z.lor (Z.shiftl msb 8) (Z.land lsb 0xFF) = msb * 256 + lsb.
Proof.
  intros Hm Hl.
  assert (El : Z.land lsb 0xFF = lsb).
  { rewrite <- u8_land. now apply IntFacts.u8_small. }
  rewrite El.
  assert (Hdisj : Z.land (Z.shiftl msb 8) lsb = 0).
  { apply Z.bits_inj'. intros n Hn.
    rewrite Z.land_spec, Z.bits_0.
    destruct (Z.ltb_spec n 8).
    - rewrite Z.shiftl_spec_low by lia. reflexivity.
    - rewrite (Z.bits_above_log2 lsb n); [apply andb_false_r | lia |].
      destruct (Z.eq_dec lsb 0) as [->|Hnz]; [simpl; lia|].
      apply Z.log2_lt_pow2; [lia|].
      apply Z.lt_le_trans with (2 ^ 8); [lia|].
      apply Z.pow_le_mono_r; lia. }
  rewrite <- (Z.lxor_lor _ _ Hdisj), <- (Z.add_nocarry_lxor _ _ Hdisj).
  rewrite Z.shiftl_mul_pow2 by lia. reflexivity.
Qed.

(** ** What one call of each register primitive puts on the bus *)

(** Runs a straight-line sequence of bus actions on the world of the goal,
    one action after the other. *)
Ltac run_bus :=
  lazy beta iota zeta delta
    [bind ret digitalWrite SPI_transfer delayMicroseconds delay emit
     record_call pinMode_OUTPUT fst snd pins slave bus calls].

Section Primitives.
Context {D : Type} `{Slave D}.
Variable this : ADIS16000.

(** The bytes [regWrite] shifts out are the two bytes of the data; the
    register address is in neither. *)
Lemma regWrite_run (regAddr regData : Z) (w : world D) :
  let lo := Int.u8 regData in
  let hi := Int.u8 (Z.shiftr (Int.u16 regData) 8) in
  let s1 := slave_pin this.(_CS) LOW (slave w) in
  let r1 := slave_transfer lo s1 in
  let r2 := slave_transfer hi (snd r1) in
  regWrite this regAddr regData w =
  (1, World (<[this.(_CS) := HIGH]> (<[this.(_CS) := LOW]> (pins w)))
            (slave_pin this.(_CS) HIGH (snd r2))
            (bus w ++ [DigitalWrite this.(_CS) LOW;
                       Transfer lo (Int.u8 (fst r1));
                       Transfer hi (Int.u8 (fst r2));
                       DigitalWrite this.(_CS) HIGH;
                       DelayMicroseconds 25])
            (calls w ++ [RegWrite (Int.u8 regAddr) (Int.u16 regData)])).
Proof.
  intros lo hi s1 r1 r2.
  unfold regWrite, lowWord, highWord, addr. run_bus.
  rewrite low_byte_of_word, low_byte_of_high_word, !IntFacts.u8_idem.
  rewrite IntFacts.u8_u16. fold lo.
  fold s1. fold r1. fold hi. fold r2.
  rewrite <- !app_assoc. reflexivity.
Qed.

Lemma regRead_run (regAddr : Z) (w : world D) :
  let s1 := slave_pin this.(_CS) LOW (slave w) in
  let r1 := slave_transfer (Int.u8 regAddr) s1 in
  let r2 := slave_transfer 0 (snd r1) in
  let s2 := slave_pin this.(_CS) LOW (slave_pin this.(_CS) HIGH (snd r2)) in
  let r3 := slave_transfer 0 s2 in
  let r4 := slave_transfer 0 (snd r3) in
  let msb := Int.u8 (fst r3) in
  let lsb := Int.u8 (fst r4) in
  let dataOut := Int.s16 (Z.lor (Z.shiftl msb 8) (Z.land lsb 0xFF)) in
  regRead this regAddr w =
  (dataOut,
   World (<[this.(_CS) := HIGH]> (<[this.(_CS) := LOW]>
            (<[this.(_CS) := HIGH]> (<[this.(_CS) := LOW]> (pins w)))))
         (slave_pin this.(_CS) HIGH (snd r4))
         (bus w ++ [DigitalWrite this.(_CS) LOW;
                    Transfer (Int.u8 regAddr) (Int.u8 (fst r1));
                    Transfer 0 (Int.u8 (fst r2));
                    DigitalWrite this.(_CS) HIGH;
                    DelayMicroseconds 15;
                    DigitalWrite this.(_CS) LOW;
                    Transfer 0 msb;
                    Transfer 0 lsb;
                    DigitalWrite this.(_CS) HIGH;
                    DelayMicroseconds 15])
         (calls w ++ [RegRead (Int.u8 regAddr) dataOut])).
Proof.
  intros s1 r1 r2 s2 r3 r4 msb lsb dataOut.
  unfold regRead. run_bus.
  rewrite !IntFacts.u8_idem. change (Int.u8 0) with 0.
  fold s1. fold r1. fold r2. fold s2. fold r3. fold r4. fold msb. fold lsb.
  fold dataOut.
  rewrite <- !app_assoc. reflexivity.
Qed.

End Primitives.


(** ** Register read (lines 84-114) *)

Section RegisterAccess.
Context {D : Type} `{Slave D}.
Variable this : ADIS16000.

Lemma bind_run {A B} (m : M D A) (k : A -> M D B) (w : world D) :
  bind m k w = k (fst (m w)) (snd (m w)).
Proof. unfold bind. now destruct (m w). Qed.

Lemma regWrite_value regAddr regData (w : world D) :
  fst (regWrite this regAddr regData w) = 1.
Proof. now rewrite regWrite_run. Qed.

Lemma regWrite_calls regAddr regData (w : world D) :
  calls (snd (regWrite this regAddr regData w))
  = calls w ++ [RegWrite (Int.u8 regAddr) (Int.u16 regData)].
Proof. now rewrite regWrite_run. Qed.

Lemma regRead_calls regAddr (w : world D) :
  calls (snd (regRead this regAddr w))
  = calls w ++ [RegRead (Int.u8 regAddr) (fst (regRead this regAddr w))].
Proof. now rewrite regRead_run. Qed.


(** ** Hardware reset (lines 58-64) *)

(** C9.  For every settle delay the caller can pass (a [uint8_t]), [resetDUT]
    drives the reset line low, waits 100 ms, drives it high, waits the settle
    delay and returns 1; the reset line is high on return.  The whole effect:
    the pin is written low and then high, the device sees the line go low
    and then high, the bus log gains those two writes with the two waits
    after them, and nothing else changes. *)
Theorem resetDUT_pulse (ms : Z) (w : world D) :
  0 <= ms < 256 ->
  resetDUT this ms w
  = (1, World (<[this.(_RST) := HIGH]> (<[this.(_RST) := LOW]> (pins w)))
              (slave_pin this.(_RST) HIGH
                 (slave_pin this.(_RST) LOW (slave w)))
              (bus w ++ [DigitalWrite this.(_RST) LOW; Delay 100;
                         DigitalWrite this.(_RST) HIGH; Delay ms])
              (calls w))
  /\ fst (resetDUT this ms w) = 1
  /\ bus (snd (resetDUT this ms w))
     = bus w ++ [DigitalWrite this.(_RST) LOW; Delay 100;
                 DigitalWrite this.(_RST) HIGH; Delay ms]
  /\ slave (snd (resetDUT this ms w))
     = slave_pin this.(_RST) HIGH (slave_pin this.(_RST) LOW (slave w))
  /\ pins (snd (resetDUT this ms w)) !! this.(_RST) = Some HIGH
  /\ (forall pin : Z, pin <> this.(_RST) ->
      pins (snd (resetDUT this ms w)) !! pin = pins w !! pin)
  /\ calls (snd (resetDUT this ms w)) = calls w.
Proof.
  intros Hms. unfold resetDUT. run_bus.
  rewrite (IntFacts.u8_small ms Hms), <- !app_assoc. cbn [app].
  split; [reflexivity|]. split; [reflexivity|]. split; [reflexivity|].
  split; [reflexivity|]. split; [apply lookup_insert_eq|].
  split; [|reflexivity].
  intros pin Hpin. now rewrite !lookup_insert_ne by congruence.
Qed.

End RegisterAccess.

Lemma resetDUT_pulse_witness :
  0 <= 50 < 256
  /\ resetDUT Mock.driver 50 Mock.ready
     = (1, World (<[Mock.RST := HIGH]> (<[Mock.RST := LOW]> (pins Mock.ready)))
                 (slave_pin Mock.RST HIGH
                    (slave_pin Mock.RST LOW (slave Mock.ready)))
                 (bus Mock.ready ++ [DigitalWrite Mock.RST LOW; Delay 100;
                                     DigitalWrite Mock.RST HIGH; Delay 50])
                 (calls Mock.ready))
  /\ fst (resetDUT Mock.driver 50 Mock.ready) = 1
  /\ bus (snd (resetDUT Mock.driver 50 Mock.ready))
     = bus Mock.ready ++ [DigitalWrite Mock.RST LOW; Delay 100;
                          DigitalWrite Mock.RST HIGH; Delay 50]
  /\ slave (snd (resetDUT Mock.driver 50 Mock.ready))
     = slave_pin Mock.RST HIGH (slave_pin Mock.RST LOW (slave Mock.ready))
  /\ pins (snd (resetDUT Mock.driver 50 Mock.ready)) !! Mock.RST = Some HIGH
  /\ (forall pin : Z, pin <> Mock.RST ->
      pins (snd (resetDUT Mock.driver 50 Mock.ready)) !! pin
      = pins Mock.ready !! pin)
  /\ calls (snd (resetDUT Mock.driver 50 Mock.ready)) = calls Mock.ready.
Proof.
  split; [lia|].
  apply (resetDUT_pulse Mock.driver 50 Mock.ready). lia.
Defined.

(** ** Register write (lines 123-144) *)

Lemma bytes_out_app (l1 l2 : list event) :
  bytes_out (l1 ++ l2) = bytes_out l1 ++ bytes_out l2.
Proof. unfold bytes_out. apply omap_app. Qed.

(** Whatever the register address, [regWrite] leaves pins, device and bus in
    the same state: the address computed at line 126 never reaches
    [SPI.transfer]. *)
Lemma regWrite_address_blind {D : Type} `{Slave D} (this : ADIS16000)
    (regAddr regAddr' regData : Z) (w : world D) :
  pins (snd (regWrite this regAddr regData w))
    = pins (snd (regWrite this regAddr' regData w))
  /\ slave (snd (regWrite this regAddr regData w))
    = slave (snd (regWrite this regAddr' regData w))
  /\ bus (snd (regWrite this regAddr regData w))
    = bus (snd (regWrite this regAddr' regData w)).
Proof. rewrite !regWrite_run. cbn [snd pins slave bus]. auto. Qed.

(** What [regRead] returns depends on the device alone. *)
Lemma regRead_value_slave {D : Type} `{Slave D} (this : ADIS16000)
    (regAddr : Z) (w w' : world D) :
  slave w = slave w' ->
  fst (regRead this regAddr w) = fst (regRead this regAddr w').
Proof. intros E. rewrite !regRead_run. cbn [fst]. now rewrite E. Qed.

(** C1 (the code departs from it).  Whatever the address and the data,
    [regWrite] returns 1 after shifting out, in one chip-select pulse, two
    bytes: the low and the high byte of the data, not the four bytes of the
    two address-and-data words.  At address 0x02 and data 0x1234 the words
    packed are 0x8234 and 0x8312 and the bus carries 0x34, 0x12, where the
    two words sent low byte first would be 0x34, 0x82, 0x12, 0x83.  (The
    high word is packed with address OR 1: at the odd address 0x01 both
    words carry 0x81.) *)
Theorem regWrite_shifts_out_data_only :
  (forall (D : Type) (S : Slave D) (this : ADIS16000) (regAddr regData : Z)
          (w : world D),
      fst (regWrite this regAddr regData w) = 1
      /\ bytes_out (bus (snd (regWrite this regAddr regData w)))
         = bytes_out (bus w)
           ++ [Int.u8 regData; Int.u8 (Z.shiftr (Int.u16 regData) 8)])
  /\ lowWord 0x02 0x1234 = 0x8234
  /\ highWord 0x02 0x1234 = 0x8312
  /\ skipn (length (bus Mock.ready))
           (bus (snd (regWrite Mock.driver 0x02 0x1234 Mock.ready)))
     = [DigitalWrite Mock.CS LOW; Transfer 0x34 0; Transfer 0x12 0;
        DigitalWrite Mock.CS HIGH; DelayMicroseconds 25]
  /\ bytes_out (bus (snd (Mock.regWrite_spec Mock.driver 0x02 0x1234 Mock.ready)))
     = [0x34; 0x82; 0x12; 0x83]
  /\ Z.shiftr (lowWord 0x01 0x1234) 8 = 0x81
  /\ Z.shiftr (highWord 0x01 0x1234) 8 = 0x81.
Proof.
  split; [|repeat split; vm_compute; reflexivity].
  intros D S this regAddr regData w.
  rewrite regWrite_run. cbn [fst snd bus]. split; [reflexivity|].
  now rewrite bytes_out_app.
Qed.

(** C2 (the code departs from it).  On the simulated register file, writing
    0x1234 to register 0x02 with [regWrite] and reading register 0x02 back
    gives 0, while the same read after the write worded as the specification
    has it gives 0x1234.  On any device at all, the read after [regWrite] is
    the same whichever register was written. *)
Theorem regWrite_regRead_loses_value :
  fst (regRead Mock.driver 0x02
         (snd (regWrite Mock.driver 0x02 0x1234 Mock.ready))) = 0
  /\ fst (regRead Mock.driver 0x02
         (snd (Mock.regWrite_spec Mock.driver 0x02 0x1234 Mock.ready))) = 0x1234
  /\ (forall (D : Type) (S : Slave D) (this : ADIS16000)
             (regAddr regAddr' regData : Z) (w : world D),
        fst (regRead this regAddr (snd (regWrite this regAddr regData w)))
        = fst (regRead this regAddr (snd (regWrite this regAddr' regData w)))).
Proof.
  split; [vm_compute; reflexivity|]. split; [vm_compute; reflexivity|].
  intros D S this regAddr regAddr' regData w.
  apply regRead_value_slave.
  apply (regWrite_address_blind this regAddr regAddr' regData w).
Qed.

(** ** The scaling functions (lines 219-299) *)

Lemma s16_u16 z : Int.s16 (Int.u16 z) = Int.s16 z.
Proof.
  unfold Int.s16, Int.u16. now rewrite Zplus_mod_idemp_l.
Qed.

Lemma land_0x8000 x : Z.land x 0x8000 = if Z.testbit x 15 then 0x8000 else 0.
Proof.
  apply Z.bits_inj'. intros n Hn.
  rewrite Z.land_spec. change 0x8000 with (2 ^ 15).
  rewrite Z.pow2_bits_eqb by lia.
  destruct (Z.eqb_spec 15 n) as [<-|Hne].
  - rewrite andb_true_r.
    destruct (Z.testbit x 15);
      [now rewrite Z.pow2_bits_true by lia | now rewrite Z.bits_0].
  - rewrite andb_false_r.
    destruct (Z.testbit x 15);
      [now rewrite Z.pow2_bits_false by lia | now rewrite Z.bits_0].
Qed.

(** Bit 15 of a 16-bit pattern is its upper half. *)
Lemma testbit_15 x : 0 <= x < 65536 -> Z.testbit x 15 = (32768 <=? x).
Proof.
  intros Hx. destruct (Z.leb_spec 32768 x) as [Hge|Hlt].
  - apply Z.testbit_true; [lia|]. change (2 ^ 15) with 32768.
    replace (x / 32768) with 1; [reflexivity|].
    apply Z.div_unique with (x - 32768); lia.
  - apply Z.testbit_false; [lia|]. change (2 ^ 15) with 32768.
    rewrite Z.div_small by lia. reflexivity.
Qed.

(** The sign adjustment, on a sample given as its 16-bit pattern: 0xFFFF is
    subtracted when the top bit is set, otherwise nothing changes. *)
Lemma signedData_pattern (raw : Z) :
  signedData (Int.s16 raw)
  = if Z.testbit (Int.u16 raw) 15 then Int.u16 raw - 0xFFFF else Int.u16 raw.
Proof.
  unfold signedData. rewrite !IntFacts.u16_s16, land_0x8000.
  pose proof (IntFacts.u16_range raw) as Hr.
  rewrite (testbit_15 _ Hr).
  destruct (Z.leb_spec 32768 (Int.u16 raw)) as [Hge|Hlt].
  - change (Int.u16 32768 =? 32768) with true. cbv iota.
    rewrite s16_u16. apply IntFacts.s16_small. lia.
  - change (Int.u16 0 =? 32768) with false. cbv iota.
    rewrite <- s16_u16. apply IntFacts.s16_small. lia.
Qed.

Lemma s16_s16 z : Int.s16 (Int.s16 z) = Int.s16 z.
Proof. apply IntFacts.s16_small, IntFacts.s16_range. Qed.

(** Every constant of the two tables is cut to 0 when it is stored in the
    [int] variable [lsbrange]. *)
Lemma lsbrange_time (gRange : Z) :
  match gRange with
  | 1 => F32.to_int (F32.lit 305 10000)
  | 5 => F32.to_int (F32.lit 1526 10000)
  | 10 => F32.to_int (F32.lit 3052 10000)
  | 20 => F32.to_int (F32.lit 6104 10000)
  | _ => F32.to_int (F32.lit 305 10000)
  end = 0.
Proof.
  destruct gRange as [|p|p]; try reflexivity.
  repeat (destruct p as [p|p|]; try reflexivity).
Qed.

Lemma lsbrange_fft (gRange : Z) :
  match gRange with
  | 1 => F32.to_int (F32.lit 153 10000)
  | 5 => F32.to_int (F32.lit 763 10000)
  | 10 => F32.to_int (F32.lit 1526 10000)
  | 20 => F32.to_int (F32.lit 3052 10000)
  | _ => F32.to_int (F32.lit 153 10000)
  end = 0.
Proof.
  destruct gRange as [|p|p]; try reflexivity.
  repeat (destruct p as [p|p|]; try reflexivity).
Qed.

Lemma scaleTime_zero (sensorData gRange : Z) : scaleTime sensorData gRange = F32.zero.
Proof.
  unfold scaleTime. cbv zeta. rewrite lsbrange_time, Z.mul_0_r. reflexivity.
Qed.

Lemma scaleFFT_zero (sensorData gRange : Z) : scaleFFT sensorData gRange = F32.zero.
Proof.
  unfold scaleFFT. cbv zeta. rewrite lsbrange_fft, Z.mul_0_r. reflexivity.
Qed.

(** C3 (the code departs from it).  [scaleTime] and [scaleFFT] return 0.0 for
    every sample and every range selector: the constant of the table is lost
    when it is stored in the [int] variable [lsbrange].  For sample 1000 and
    range 1 the product the specification describes is about 30.5 for the
    time table and about 15.3 for the FFT table. *)
Theorem scaleTime_scaleFFT_lose_constant :
  (forall sensorData gRange : Z,
      scaleTime sensorData gRange = F32.zero
      /\ scaleFFT sensorData gRange = F32.zero)
  /\ scaleTime 1000 1 = S754_zero false
  /\ Spec.scaleTime 1000 1 = S754_finite false 15990784 (-19)
  /\ scaleFFT 1000 1 = S754_zero false
  /\ Spec.scaleFFT 1000 1 = S754_finite false 16043213 (-20).
Proof.
  split.
  - intros. split; [apply scaleTime_zero|apply scaleFFT_zero].
  - repeat split; vm_compute; reflexivity.
Qed.

Lemma in_zrange (n : nat) (lo k : Z) :
  lo <= k < lo + Z.of_nat n -> In k (zrange n lo).
Proof.
  revert lo. induction n as [|n IH]; intros lo Hk.
  - lia.
  - cbn [zrange]. destruct (Z.eq_dec lo k) as [->|Hne].
    + now left.
    + right. apply IH. lia.
Qed.

Lemma supply_products_negative :
  all_products_negative (F32.lit 44 100000) = true.
Proof. vm_compute. reflexivity. Qed.

Lemma temp_products_negative :
  all_products_negative (F32.lit 815 10000) = true.
Proof. vm_compute. reflexivity. Qed.

Lemma product_negative (c : spec_float) (s : Z) :
  all_products_negative c = true ->
  -32767 <= s <= -1 ->
  F32.negative (F32.mul (F32.of_int s) c) = true.
Proof.
  intros Hall Hs. unfold all_products_negative in Hall.
  rewrite forallb_forall in Hall.
  specialize (Hall (- s)). rewrite Z.opp_involutive in Hall.
  apply Hall, in_zrange. rewrite Z2Nat.id; lia.
Qed.

(** C5 (as amended).  For every raw sample whose top bit is set, the scaling
    functions adjust the sign by subtracting 0xFFFF; the outputs of
    [scaleSupply] and [scaleTemp] are then negative, except for the sample
    0xFFFF, which the subtraction takes to 0 and whose output is exactly 0.0.
    For the raw sample 0x0000 the output of each of the four functions is
    exactly 0.0. *)
Theorem scaling_sign (raw gRange : Z) :
  0 <= raw < 65536 ->
  Z.testbit raw 15 = true ->
  signedData (Int.s16 raw) = raw - 0xFFFF
  /\ scaleSupply raw = F32.mul (F32.of_int (raw - 0xFFFF)) (F32.lit 44 100000)
  /\ scaleTemp raw = F32.mul (F32.of_int (raw - 0xFFFF)) (F32.lit 815 10000)
  /\ (raw <> 0xFFFF ->
      F32.negative (scaleSupply raw) = true
      /\ F32.negative (scaleTemp raw) = true)
  /\ (raw = 0xFFFF ->
      scaleSupply raw = F32.zero /\ scaleTemp raw = F32.zero)
  /\ scaleTime 0x0000 gRange = F32.zero
  /\ scaleFFT 0x0000 gRange = F32.zero
  /\ scaleSupply 0x0000 = F32.zero
  /\ scaleTemp 0x0000 = F32.zero.
Proof.
  intros Hraw Htop.
  assert (Hsd : signedData (Int.s16 raw) = raw - 0xFFFF).
  { rewrite signedData_pattern, (IntFacts.u16_small raw Hraw), Htop.
    reflexivity. }
  assert (Hhalf : 32768 <= raw).
  { rewrite (testbit_15 raw Hraw) in Htop. lia. }
  assert (Hsupply : scaleSupply raw
                    = F32.mul (F32.of_int (raw - 0xFFFF)) (F32.lit 44 100000)).
  { unfold scaleSupply. cbv zeta. now rewrite Hsd. }
  assert (Htemp : scaleTemp raw
                  = F32.mul (F32.of_int (raw - 0xFFFF)) (F32.lit 815 10000)).
  { unfold scaleTemp. cbv zeta. now rewrite Hsd. }
  split; [exact Hsd|]. split; [exact Hsupply|]. split; [exact Htemp|].
  split; [|split].
  - intros Hne. rewrite Hsupply, Htemp. split.
    + apply product_negative; [apply supply_products_negative|lia].
    + apply product_negative; [apply temp_products_negative|lia].
  - intros ->. split; vm_compute; reflexivity.
  - split; [apply scaleTime_zero|]. split; [apply scaleFFT_zero|].
    split; vm_compute; reflexivity.
Qed.

Lemma scaling_sign_witness :
  (0 <= 0x8000 < 65536 /\ Z.testbit 0x8000 15 = true)
  /\ signedData (Int.s16 0x8000) = 0x8000 - 0xFFFF
  /\ F32.negative (scaleSupply 0x8000) = true
  /\ F32.negative (scaleTemp 0x8000) = true
  /\ (0 <= 0xFFFF < 65536 /\ Z.testbit 0xFFFF 15 = true)
  /\ scaleSupply 0xFFFF = F32.zero
  /\ scaleTemp 0xFFFF = F32.zero
  /\ scaleTime 0x0000 1 = F32.zero
  /\ scaleFFT 0x0000 1 = F32.zero
  /\ scaleSupply 0x0000 = F32.zero
  /\ scaleTemp 0x0000 = F32.zero.
Proof.
  assert (H8 : 0 <= 0x8000 < 65536) by lia.
  assert (HF : 0 <= 0xFFFF < 65536) by lia.
  destruct (scaling_sign 0x8000 1 H8 eq_refl) as (Hs & _ & _ & Hneg & _ & Hz).
  destruct (scaling_sign 0xFFFF 1 HF eq_refl) as (_ & _ & _ & _ & Hzero & _).
  destruct Hneg as [Hn1 Hn2]; [discriminate|].
  destruct (Hzero eq_refl) as [Hz1 Hz2].
  repeat split; try assumption; try apply Hz; lia.
Defined.

(** C5 as it is stated fails at the raw sample 0xFFFF: its top bit is set,
    the sign adjustment gives 0xFFFF - 0xFFFF = 0 ([sensorData] is -1, which
    the subtraction from the [unsigned int] literal reads as 65535), and the
    outputs of [scaleSupply] and [scaleTemp] are 0.0, not negative.  It also
    fails at 0x8000 for [scaleTime] and [scaleFFT], whose output is 0.0. *)
Lemma scaling_sign_counterexample :
  Z.testbit 0xFFFF 15 = true
  /\ signedData (Int.s16 0xFFFF) = 0
  /\ scaleSupply 0xFFFF = S754_zero false
  /\ F32.negative (scaleSupply 0xFFFF) = false
  /\ scaleTemp 0xFFFF = S754_zero false
  /\ F32.negative (scaleTemp 0xFFFF) = false
  /\ Z.testbit 0x8000 15 = true
  /\ F32.negative (scaleTime 0x8000 1) = false
  /\ F32.negative (scaleFFT 0x8000 1) = false.
Proof. repeat split; vm_compute; reflexivity. Qed.

(** ** Device control and buffer retrieval (lines 146-217) *)

Lemma u16_u8 z : Int.u16 (Int.u8 z) = Int.u8 z.
Proof. apply IntFacts.u16_small. pose proof (IntFacts.u8_range z). lia. Qed.

Lemma store_inside (buffer : list (option Z)) (i v : Z) :
  0 <= i < Z.of_nat (length buffer) ->
  store buffer i v = Some (<[Z.to_nat i := Some v]> buffer).
Proof.
  intros Hi. unfold store.
  replace (0 <=? i) with true by lia.
  replace (i <? Z.of_nat (length buffer)) with true by lia.
  reflexivity.
Qed.

Lemma store_outside (buffer : list (option Z)) (i v : Z) :
  Z.of_nat (length buffer) <= i -> store buffer i v = None.
Proof.
  intros Hi. unfold store.
  replace (i <? Z.of_nat (length buffer)) with false by lia.
  now rewrite andb_false_r.
Qed.

Lemma ret_run {D A} (a : A) (w : world D) : ret a w = (a, w).
Proof. reflexivity. Qed.

(** Runs the first call of a sequence: the call is replaced by its result
    and the world it leaves, and what it added to the record is kept. *)
Ltac step :=
  rewrite bind_run; cbv beta;
  match goal with
  | |- context [regWrite ?t ?a ?d ?w] =>
      let E := fresh "Ecalls" in
      pose proof (regWrite_calls t a d w) as E;
      destruct (regWrite t a d w) as [? ?]; cbn [fst snd] in *
  | |- context [regRead ?t ?a ?w] =>
      let E := fresh "Ecalls" in
      pose proof (regRead_calls t a w) as E;
      destruct (regRead t a w) as [? ?]; cbn [fst snd] in *
  end.

Section Control.
Context {D : Type} `{Slave D} `{RegisterMap}.
Variable this : ADIS16000.

(** C4 (as amended).  [setDataReady] first writes 0 to the page register,
    whatever the selector; then, for selector 1, it writes 0x08 to the GPIO
    control register and returns 1; for selector 2 it writes 0x20 there and
    returns 2; for every other selector it returns 0 and makes no register
    write other than that of the page register. *)
Theorem setDataReady_channels (dio : Z) (w : world D) :
  0 <= dio < 256 ->
  (dio = 1 ->
   fst (setDataReady this dio w) = Some 1
   /\ calls (snd (setDataReady this dio w))
      = calls w ++ [RegWrite (Int.u8 PAGE_ID) 0x00;
                    RegWrite (Int.u8 GPO_CTRL) 0x08])
  /\ (dio = 2 ->
      fst (setDataReady this dio w) = Some 2
      /\ calls (snd (setDataReady this dio w))
         = calls w ++ [RegWrite (Int.u8 PAGE_ID) 0x00;
                       RegWrite (Int.u8 GPO_CTRL) 0x20])
  /\ (dio <> 1 -> dio <> 2 ->
      fst (setDataReady this dio w) = Some 0
      /\ calls (snd (setDataReady this dio w))
         = calls w ++ [RegWrite (Int.u8 PAGE_ID) 0x00]).
Proof.
  intros Hdio. unfold setDataReady. cbv zeta.
  rewrite (IntFacts.u8_small dio Hdio), bind_run.
  split; [|split].
  - intros ->. cbn [Z.eqb Pos.eqb]. rewrite bind_run. unfold ret. cbn [fst snd].
    split; [reflexivity|].
    rewrite !regWrite_calls, <- app_assoc. reflexivity.
  - intros ->. cbn [Z.eqb Pos.eqb]. rewrite bind_run. unfold ret. cbn [fst snd].
    split; [reflexivity|].
    rewrite !regWrite_calls, <- app_assoc. reflexivity.
  - intros H1 H2.
    destruct (Z.eqb_spec dio 1) as [?|_]; [contradiction|].
    destruct (Z.eqb_spec dio 2) as [?|_]; [contradiction|].
    cbn [negb orb Z.eqb]. unfold ret. cbn [fst snd].
    split; [reflexivity|].
    now rewrite regWrite_calls.
Qed.

(** The page and buffer-pointer writes and the two buffer reads of
    [readFFT], as the record of calls shows them. *)
Lemma readFFT_run_calls (sample sensorAddr : Z) (w : world D) :
  exists x y : Z,
    calls (snd (readFFT this sample sensorAddr w))
    = calls w ++ [RegWrite (Int.u8 PAGE_ID) (Int.u8 sensorAddr);
                  RegWrite (Int.u8 BUF_PNTR) (Int.u8 sample);
                  RegRead (Int.u8 X_BUF) x;
                  RegRead (Int.u8 Y_BUF) y]
    /\ fst (readFFT this sample sensorAddr w) = OutOfBounds 2.
Proof.
  unfold readFFT. cbv zeta. do 3 step.
  rewrite store_inside by (cbn [replicate length]; lia).
  step.
  rewrite store_outside by (rewrite length_insert; cbn [replicate length]; lia).
  rewrite ret_run. cbn [fst snd].
  eexists _, _. split; [|reflexivity].
  repeat match goal with E : calls _ = _ |- _ => rewrite E; clear E end.
  rewrite !u16_u8, <- !app_assoc. reflexivity.
Qed.

Lemma count_writes_app (l1 l2 : list call) :
  count_writes (l1 ++ l2) = (count_writes l1 + count_writes l2)%nat.
Proof. unfold count_writes. now rewrite List.filter_app, length_app. Qed.

Lemma count_reads_app (l1 l2 : list call) :
  count_reads (l1 ++ l2) = (count_reads l1 + count_reads l2)%nat.
Proof. unfold count_reads. now rewrite List.filter_app, length_app. Qed.

(** C6 (as amended).  For every sample index and sensor address, [readFFT]
    makes exactly two register writes -- the sensor address to the page
    register, then the sample index to the buffer pointer -- and then exactly
    two register reads -- the X buffer, then the Y buffer. *)
Theorem readFFT_two_writes_two_reads (sample sensorAddr : Z) (w : world D) :
  (exists x y : Z,
      calls (snd (readFFT this sample sensorAddr w))
      = calls w ++ [RegWrite (Int.u8 PAGE_ID) (Int.u8 sensorAddr);
                    RegWrite (Int.u8 BUF_PNTR) (Int.u8 sample);
                    RegRead (Int.u8 X_BUF) x;
                    RegRead (Int.u8 Y_BUF) y])
  /\ count_writes (calls (snd (readFFT this sample sensorAddr w)))
     = (count_writes (calls w) + 2)%nat
  /\ count_reads (calls (snd (readFFT this sample sensorAddr w)))
     = (count_reads (calls w) + 2)%nat.
Proof.
  destruct (readFFT_run_calls sample sensorAddr w) as (x & y & E & _).
  split; [now exists x, y|].
  rewrite E, count_writes_app, count_reads_app. split; reflexivity.
Qed.

(** The loop of [readFFTBuffer] runs past the end of the 512-entry array:
    started at an index up to 256 with enough iterations left to reach index
    256, it ends at the store to [i + 256 = 512]. *)
Lemma readFFTBuffer_loop_overruns (n : nat) (i : Z) (buffer : list (option Z))
    (w : world D) :
  length buffer = 512%nat ->
  0 <= i <= 256 ->
  256 < i + Z.of_nat n ->
  fst (readFFTBuffer_loop this n i buffer w) = OutOfBounds 512.
Proof.
  revert i buffer w. induction n as [|n IH]; intros i buffer w Hlen Hi Hn.
  - lia.
  - cbn [readFFTBuffer_loop]. rewrite bind_run.
    rewrite store_inside by (rewrite Hlen; lia).
    rewrite bind_run.
    destruct (Z.eq_dec i 256) as [->|Hne].
    + rewrite store_outside by (rewrite length_insert, Hlen; lia).
      reflexivity.
    + rewrite store_inside by (rewrite length_insert, Hlen; lia).
      apply IH; [now rewrite !length_insert | lia | lia].
Qed.

Lemma readFFTBuffer_overruns (sensorAddr : Z) (w : world D) :
  fst (readFFTBuffer this sensorAddr w) = OutOfBounds 512.
Proof.
  unfold readFFTBuffer. cbv zeta. rewrite !bind_run.
  apply readFFTBuffer_loop_overruns; [reflexivity | lia | lia].
Qed.

End Control.

Lemma setDataReady_channels_witness :
  (0 <= 1 < 256 /\ 0 <= 2 < 256 /\ 0 <= 3 < 256)
  /\ (fst (setDataReady Mock.driver 1 Mock.ready) = Some 1
      /\ calls (snd (setDataReady Mock.driver 1 Mock.ready))
         = calls Mock.ready ++ [RegWrite (Int.u8 PAGE_ID) 0x00;
                                RegWrite (Int.u8 GPO_CTRL) 0x08])
  /\ (fst (setDataReady Mock.driver 2 Mock.ready) = Some 2
      /\ calls (snd (setDataReady Mock.driver 2 Mock.ready))
         = calls Mock.ready ++ [RegWrite (Int.u8 PAGE_ID) 0x00;
                                RegWrite (Int.u8 GPO_CTRL) 0x20])
  /\ (fst (setDataReady Mock.driver 3 Mock.ready) = Some 0
      /\ calls (snd (setDataReady Mock.driver 3 Mock.ready))
         = calls Mock.ready ++ [RegWrite (Int.u8 PAGE_ID) 0x00]).
Proof.
  split; [lia|]. split; [|split].
  - apply (setDataReady_channels Mock.driver 1 Mock.ready); [lia|reflexivity].
  - apply (setDataReady_channels Mock.driver 2 Mock.ready); [lia|reflexivity].
  - apply (setDataReady_channels Mock.driver 3 Mock.ready); lia.
Defined.

(** C4 as it is stated fails for selector 3: the function returns 0, but it
    has made a register write, the one that selects page 0 (line 196 comes
    before any test of the selector). *)
Lemma setDataReady_counterexample :
  fst (setDataReady Mock.driver 3 Mock.ready) = Some 0
  /\ calls (snd (setDataReady Mock.driver 3 Mock.ready)) = [RegWrite 0x00 0x00]
  /\ count_writes (calls (snd (setDataReady Mock.driver 3 Mock.ready))) = 1%nat
  /\ count_writes (calls (snd (setDataReady Mock.driver 3 Mock.ready))) <> 0%nat.
Proof.
  split; [vm_compute; reflexivity|].
  split; [vm_compute; reflexivity|].
  split; [vm_compute; reflexivity|].
  vm_compute. discriminate.
Qed.

(** C6 as it is stated fails for sample 5 of sensor 1: the register writes
    are two, not three. *)
Lemma readFFT_counterexample :
  calls (snd (readFFT Mock.driver 5 1 Mock.ready))
  = [RegWrite 0x00 1; RegWrite 0x10 5; RegRead 0x12 0; RegRead 0x14 0]
  /\ count_writes (calls (snd (readFFT Mock.driver 5 1 Mock.ready))) = 2%nat
  /\ count_writes (calls (snd (readFFT Mock.driver 5 1 Mock.ready))) <> 3%nat.
Proof.
  split; [vm_compute; reflexivity|].
  split; [vm_compute; reflexivity|].
  vm_compute. discriminate.
Qed.

(** C7 (the code departs from it).  For every sensor address and on every
    device, [readFFTBuffer] ends at a store to index 512 of its 512-entry
    array, one past the last entry: the loop runs to 510 with the Y samples
    stored at [i + 256].  On the simulated device that is after the four
    register writes and 257 reads of each of the X and Y buffers. *)
Theorem readFFTBuffer_stores_out_of_bounds :
  (forall (D : Type) (S : Slave D) (R : RegisterMap) (this : ADIS16000)
          (sensorAddr : Z) (w : world D),
      fst (readFFTBuffer this sensorAddr w) = OutOfBounds 512)
  /\ fst (readFFTBuffer Mock.driver 1 Mock.ready) = OutOfBounds 512
  /\ firstn 4 (calls (snd (readFFTBuffer Mock.driver 1 Mock.ready)))
     = [RegWrite (Int.u8 PAGE_ID) 1; RegWrite (Int.u8 BUF_PNTR) 0x00;
        RegWrite (Int.u8 GLOB_CMD_S) 0x800; RegWrite (Int.u8 GLOB_CMD_G) 0x2]
  /\ count_writes (calls (snd (readFFTBuffer Mock.driver 1 Mock.ready))) = 4%nat
  /\ count_reads (calls (snd (readFFTBuffer Mock.driver 1 Mock.ready)))
     = (257 + 257)%nat.
Proof.
  split.
  - intros. apply readFFTBuffer_overruns.
  - repeat split; vm_compute; reflexivity.
Qed.

(** ** The chip-select line *)

Lemma cs_scan_app (cs : Z) (st : cs_state) (t1 t2 : list event) :
  cs_scan cs st (t1 ++ t2)
  = match cs_scan cs st t1 with
    | Some st' => cs_scan cs st' t2
    | None => None
    end.
Proof.
  revert st. induction t1 as [|e t1 IH]; intros st; cbn [cs_scan app].
  - reflexivity.
  - destruct (cs_step cs st e); [apply IH | reflexivity].
Qed.

Section ChipSelect.
Context {D : Type} `{Slave D} `{RegisterMap}.
Variable this : ADIS16000.
Variable strict : bool.

Lemma disciplined_ret {A} (a : A) :
  disciplined (D := D) strict this.(_CS) (ret a).
Proof.
  intros w. exists []. rewrite app_nil_r. cbn. repeat split; tauto.
Qed.

Lemma disciplined_bind {A B} (m : M D A) (k : A -> M D B) :
  disciplined strict this.(_CS) m ->
  (forall a, disciplined strict this.(_CS) (k a)) ->
  disciplined strict this.(_CS) (bind m k).
Proof.
  intros Hm Hk w. rewrite bind_run.
  destruct (Hm w) as (t1 & Eb1 & Es1 & Hkeep1 & Hlow1).
  destruct (Hk (fst (m w)) (snd (m w))) as (t2 & Eb2 & Es2 & Hkeep2 & Hlow2).
  exists (t1 ++ t2). repeat split.
  - now rewrite Eb2, Eb1, app_assoc.
  - intros Hs. now rewrite cs_scan_app, (Es1 Hs), (Es2 Hs).
  - auto.
  - intros [Hin|Hin]%in_app_or; auto.
Qed.

Lemma disciplined_emit (e : event) :
  cs_step this.(_CS) Idle e = Some Idle ->
  disciplined (D := D) strict this.(_CS) (emit e).
Proof.
  intros He w. exists [e]. cbn [emit snd bus pins cs_scan]. rewrite He.
  repeat split; [tauto|].
  intros [->|[]]. cbn in He. rewrite Z.eqb_refl in He. discriminate.
Qed.

Lemma disciplined_digitalWrite (pin : Z) (l : level) :
  pin <> this.(_CS) ->
  disciplined strict this.(_CS) (digitalWrite pin l).
Proof.
  intros Hpin w. exists [DigitalWrite pin l].
  cbn [digitalWrite snd bus pins cs_scan cs_step].
  replace (pin =? _CS this) with false by lia.
  repeat split.
  - now destruct l.
  - now rewrite lookup_insert_ne.
  - intros [E|[]]. congruence.
Qed.

Lemma disciplined_regWrite (regAddr regData : Z) :
  disciplined strict this.(_CS) (regWrite this regAddr regData).
Proof.
  intros w. rewrite regWrite_run. cbv zeta. cbn [snd bus pins].
  eexists. split; [reflexivity|].
  cbn [cs_scan cs_step]. rewrite Z.eqb_refl. cbn [cs_scan cs_step].
  rewrite Z.eqb_refl.
  repeat split; intros _; apply lookup_insert_eq.
Qed.

Lemma disciplined_regRead (regAddr : Z) :
  disciplined strict this.(_CS) (regRead this regAddr).
Proof.
  intros w. rewrite regRead_run. cbv zeta. cbn [snd bus pins].
  eexists. split; [reflexivity|].
  cbn [cs_scan cs_step]. rewrite Z.eqb_refl. cbn [cs_scan cs_step].
  rewrite Z.eqb_refl. cbn [cs_scan cs_step].
  rewrite Z.eqb_refl. cbn [cs_scan cs_step].
  rewrite Z.eqb_refl.
  repeat split; intros _; apply lookup_insert_eq.
Qed.

(** Takes a sequence of calls apart, one bind at a time. *)
Ltac discipline1 :=
  lazymatch goal with
  | |- disciplined _ _ (bind _ _) => apply disciplined_bind; [|intros ?]
  | |- disciplined _ _ (ret _) => apply disciplined_ret
  | |- disciplined _ _ (regWrite _ _ _) => apply disciplined_regWrite
  | |- disciplined _ _ (regRead _ _) => apply disciplined_regRead
  | |- disciplined _ _ (emit _) => apply disciplined_emit; reflexivity
  | |- disciplined _ _ (digitalWrite _ _) =>
      apply disciplined_digitalWrite; congruence
  end.

Ltac discipline := cbv zeta; repeat discipline1.

Lemma disciplined_configSPI : disciplined (D := D) strict this.(_CS) configSPI.
Proof. unfold configSPI. discipline. Qed.

(** The reset pulse leaves chip-select alone when the two lines differ.  On
    one and the same line the pulse is no bus transaction, but it still ends
    with the line high. *)
Lemma disciplined_resetDUT (ms : Z) :
  (strict = true -> this.(_CS) <> this.(_RST)) ->
  disciplined strict this.(_CS) (resetDUT this ms).
Proof.
  intros Hpins.
  destruct (Z.eq_dec this.(_CS) this.(_RST)) as [Esame|Hdiff].
  - intros w. unfold resetDUT. run_bus. rewrite <- Esame, <- !app_assoc.
    eexists. split; [reflexivity|].
    split; [intros Hs; now destruct (Hpins Hs)|].
    split; intros _; apply lookup_insert_eq.
  - unfold resetDUT, delay. discipline.
Qed.

Lemma disciplined_addSensor (sensorAddr : Z) :
  disciplined strict this.(_CS) (addSensor this sensorAddr).
Proof. unfold addSensor, delayMicroseconds. discipline. Qed.

Lemma disciplined_removeSensor (sensorAddr : Z) :
  disciplined strict this.(_CS) (removeSensor this sensorAddr).
Proof. unfold removeSensor. discipline. Qed.

Lemma disciplined_saveGatewaySettings :
  disciplined strict this.(_CS) (saveGatewaySettings this).
Proof. unfold saveGatewaySettings. discipline. Qed.

Lemma disciplined_saveSensorSettings (sensorAddr : Z) :
  disciplined strict this.(_CS) (saveSensorSettings this sensorAddr).
Proof. unfold saveSensorSettings. discipline. Qed.

Lemma disciplined_setPeriodicMode (interval scalefactor sensorAddr : Z) :
  disciplined strict this.(_CS)
    (setPeriodicMode this interval scalefactor sensorAddr).
Proof. unfold setPeriodicMode. discipline. Qed.

Lemma disciplined_setDataReady (dio : Z) :
  disciplined strict this.(_CS) (setDataReady this dio).
Proof.
  unfold setDataReady. cbv zeta.
  apply disciplined_bind; [apply disciplined_regWrite|intros _].
  destruct (Int.u8 dio =? 1); [discipline|].
  destruct (Int.u8 dio =? 2); [discipline|].
  cbn [negb orb Z.eqb]. apply disciplined_ret.
Qed.

Lemma disciplined_readFFT (sample sensorAddr : Z) :
  disciplined strict this.(_CS) (readFFT this sample sensorAddr).
Proof.
  unfold readFFT. cbv zeta.
  do 3 (apply disciplined_bind; [discipline1|intros ?]).
  destruct (store _ _ _); [|apply disciplined_ret].
  apply disciplined_bind; [discipline1|intros ?].
  destruct (store _ _ _); apply disciplined_ret.
Qed.

Lemma disciplined_readFFTBuffer_loop (n : nat) (i : Z)
    (buffer : list (option Z)) :
  disciplined strict this.(_CS) (readFFTBuffer_loop this n i buffer).
Proof.
  revert i buffer. induction n as [|n IH]; intros i buffer;
    cbn [readFFTBuffer_loop].
  - apply disciplined_ret.
  - apply disciplined_bind; [apply disciplined_regRead|intros x].
    destruct (store buffer i x); [|apply disciplined_ret].
    apply disciplined_bind; [apply disciplined_regRead|intros y].
    destruct (store _ _ y); [apply IH|apply disciplined_ret].
Qed.

Lemma disciplined_readFFTBuffer (sensorAddr : Z) :
  disciplined strict this.(_CS) (readFFTBuffer this sensorAddr).
Proof.
  unfold readFFTBuffer. cbv zeta.
  do 4 (apply disciplined_bind; [apply disciplined_regWrite|intros _]).
  apply disciplined_readFFTBuffer_loop.
Qed.

Lemma disciplined_perform (op : operation) :
  (strict = true -> this.(_CS) <> this.(_RST)) ->
  disciplined strict this.(_CS) (perform this op).
Proof.
  intros Hpins. destruct op; cbn [perform];
    (apply disciplined_bind; [|intros ?; apply disciplined_ret]).
  - now apply disciplined_resetDUT.
  - apply disciplined_configSPI.
  - apply disciplined_regRead.
  - apply disciplined_regWrite.
  - apply disciplined_addSensor.
  - apply disciplined_removeSensor.
  - apply disciplined_saveGatewaySettings.
  - apply disciplined_saveSensorSettings.
  - apply disciplined_readFFTBuffer.
  - apply disciplined_readFFT.
  - apply disciplined_setDataReady.
  - apply disciplined_setPeriodicMode.
Qed.

Lemma disciplined_perform_all (ops : list operation) :
  (strict = true -> this.(_CS) <> this.(_RST)) ->
  disciplined strict this.(_CS) (perform_all this ops).
Proof.
  intros Hpins. induction ops as [|op ops IH]; cbn [perform_all].
  - apply disciplined_ret.
  - apply disciplined_bind; [now apply disciplined_perform | intros _; exact IH].
Qed.

End ChipSelect.

(** The constructor leaves both lines high. *)
Lemma ADIS16000_new_run {D : Type} `{Slave D} (CS RST : Z) (w : world D) :
  fst (ADIS16000_new CS RST w) = {| _CS := Int.s16 CS; _RST := Int.s16 RST |}
  /\ pins (snd (ADIS16000_new CS RST w))
     = <[Int.s16 RST := HIGH]> (<[Int.s16 CS := HIGH]> (pins w)).
Proof. unfold ADIS16000_new, configSPI. run_bus. split; reflexivity. Qed.

Lemma scan_one_transaction_per_pulse (cs : Z) (t : list event) :
  cs_scan cs Idle t = Some Idle -> one_transaction_per_pulse cs t = true.
Proof. intros E. unfold one_transaction_per_pulse. now rewrite E. Qed.

(** C10 (as amended).  Take a driver built by the constructor.  Every
    operation, from whatever state it is called: if it drove chip-select low
    it has driven it high again when it returns; and, provided the reset line
    is another line than chip-select, what it adds to the bus log is
    chip-select pulses that each bracket one two-byte transaction and nothing
    else.  Chip-select is high when the constructor returns, and it is high
    after any sequence of operations that follows. *)
Theorem chip_select_idle_high {D : Type} `{Slave D} `{RegisterMap}
    (CS RST : Z) (w0 w : world D) (op : operation) (ops : list operation) :
  let this := fst (ADIS16000_new CS RST w0) in
  let w1 := snd (ADIS16000_new CS RST w0) in
  (exists t : list event,
      bus (snd (perform this op w)) = bus w ++ t
      /\ (In (DigitalWrite this.(_CS) LOW) t ->
          pins (snd (perform this op w)) !! this.(_CS) = Some HIGH)
      /\ (this.(_CS) <> this.(_RST) ->
          one_transaction_per_pulse this.(_CS) t = true))
  /\ pins w1 !! this.(_CS) = Some HIGH
  /\ pins (snd (perform_all this ops w1)) !! this.(_CS) = Some HIGH.
Proof.
  intros this w1.
  destruct (ADIS16000_new_run CS RST w0) as [Ethis Epins].
  assert (Hhigh : pins w1 !! this.(_CS) = Some HIGH).
  { subst this w1. rewrite Epins, Ethis. cbn [_CS].
    destruct (Z.eq_dec (Int.s16 RST) (Int.s16 CS)) as [->|Hne].
    - apply lookup_insert_eq.
    - rewrite lookup_insert_ne by exact Hne. apply lookup_insert_eq. }
  split; [|split].
  - destruct (Z.eq_dec this.(_CS) this.(_RST)) as [Esame|Hdiff].
    + destruct (disciplined_perform this false op ltac:(discriminate) w)
        as (t & Eb & _ & _ & Hlow).
      exists t. split; [exact Eb|]. split; [exact Hlow|]. now intros [].
    + destruct (disciplined_perform this true op (fun _ => Hdiff) w)
        as (t & Eb & Es & _ & Hlow).
      exists t. split; [exact Eb|]. split; [exact Hlow|]. intros _.
      now apply scan_one_transaction_per_pulse, Es.
  - exact Hhigh.
  - destruct (disciplined_perform_all this false ops ltac:(discriminate) w1)
      as (t & _ & _ & Hkeep & _).
    now apply Hkeep.
Qed.

Lemma chip_select_idle_high_witness :
  Mock.CS <> Mock.RST
  /\ (exists t : list event,
        bus (snd (perform Mock.driver (Op_regWrite 0x02 0x1234) Mock.ready))
        = bus Mock.ready ++ t
        /\ In (DigitalWrite Mock.CS LOW) t
        /\ pins (snd (perform Mock.driver (Op_regWrite 0x02 0x1234) Mock.ready))
             !! Mock.CS = Some HIGH
        /\ one_transaction_per_pulse Mock.CS t = true)
  /\ pins Mock.ready !! Mock.CS = Some HIGH
  /\ pins (snd (perform_all Mock.driver
                  [Op_resetDUT 50; Op_regWrite 0x02 0x1234; Op_regRead 0x02]
                  Mock.ready)) !! Mock.CS = Some HIGH.
Proof.
  assert (Hlines : Mock.CS <> Mock.RST) by discriminate.
  destruct (chip_select_idle_high 10 9 Mock.power_up Mock.ready
              (Op_regWrite 0x02 0x1234)
              [Op_resetDUT 50; Op_regWrite 0x02 0x1234; Op_regRead 0x02])
    as ((t & Eb & Hlow & Hscan) & Hready & Hafter).
  split; [exact Hlines|]. split; [|split; assumption].
  exists t. split; [exact Eb|].
  assert (Hin : In (DigitalWrite Mock.CS LOW) t).
  { apply app_inv_head with (l := bus Mock.ready)
      (l1 := [DigitalWrite Mock.CS LOW; Transfer 0x34 0; Transfer 0x12 0;
              DigitalWrite Mock.CS HIGH; DelayMicroseconds 25]) in Eb.
    rewrite <- Eb. now left. }
  split; [exact Hin|]. split; [exact (Hlow Hin)|exact (Hscan Hlines)].
Defined.

(** C10 as it is stated fails for a driver built on one and the same line for
    chip-select and reset (the constructor takes any two numbers): the reset
    pulse then holds chip-select low for the 100 ms wait, with no byte
    exchanged, which is no bus transaction. *)
Lemma chip_select_counterexample :
  _CS (fst (ADIS16000_new 7 7 Mock.power_up)) = 7
  /\ _RST (fst (ADIS16000_new 7 7 Mock.power_up)) = 7
  /\ bus (snd (perform (fst (ADIS16000_new 7 7 Mock.power_up))
                       (Op_resetDUT 50)
                       (snd (ADIS16000_new 7 7 Mock.power_up))))
     = bus (snd (ADIS16000_new 7 7 Mock.power_up))
       ++ [DigitalWrite 7 LOW; Delay 100; DigitalWrite 7 HIGH; Delay 50]
  /\ one_transaction_per_pulse 7
       [DigitalWrite 7 LOW; Delay 100; DigitalWrite 7 HIGH; Delay 50] = false
  /\ one_transaction_per_pulse 7
       (skipn (length (bus (snd (ADIS16000_new 7 7 Mock.power_up))))
          (bus (snd (perform (fst (ADIS16000_new 7 7 Mock.power_up))
                             (Op_resetDUT 50)
                             (snd (ADIS16000_new 7 7 Mock.power_up))))))
     = false.
Proof. repeat split; vm_compute; reflexivity. Qed.

(** * Further properties of the driver *)

(** ** Construction (lines 33-45, 71-76) *)

(** X1.  The constructor keeps the two line numbers, starts the SPI bus and
    sets it up (most significant bit first, clock divided by 8, mode 3)
    before it touches a pin, makes both lines outputs and drives chip-select
    and then reset high.  Both lines are high when it returns, also when they
    are one and the same line; no byte has been exchanged and no register
    primitive called. *)
Theorem construction_run {D : Type} `{Slave D} (CS RST : Z) (w : world D) :
  let this := fst (ADIS16000_new CS RST w) in
  let w' := snd (ADIS16000_new CS RST w) in
  this = {| _CS := Int.s16 CS; _RST := Int.s16 RST |}
  /\ bus w' = bus w ++ [SpiBegin; SetBitOrder_MSBFIRST; SetClockDivider_DIV8;
                        SetDataMode_MODE3;
                        PinMode_OUTPUT this.(_CS); PinMode_OUTPUT this.(_RST);
                        DigitalWrite this.(_CS) HIGH;
                        DigitalWrite this.(_RST) HIGH]
  /\ slave w'
     = slave_pin this.(_RST) HIGH (slave_pin this.(_CS) HIGH (slave w))
  /\ pins w' !! this.(_CS) = Some HIGH
  /\ pins w' !! this.(_RST) = Some HIGH
  /\ bytes_out (bus w') = bytes_out (bus w)
  /\ calls w' = calls w.
Proof.
  unfold ADIS16000_new, configSPI. run_bus. cbn [_CS _RST].
  rewrite <- !app_assoc. cbn [app].
  split; [reflexivity|]. split; [reflexivity|]. split; [reflexivity|].
  split; [|split; [apply lookup_insert_eq|split; [|reflexivity]]].
  - destruct (Z.eq_dec (Int.s16 RST) (Int.s16 CS)) as [->|Hne].
    + apply lookup_insert_eq.
    + rewrite lookup_insert_ne by exact Hne. apply lookup_insert_eq.
  - rewrite bytes_out_app. cbn. apply app_nil_r.
Qed.

(** ** The words packed by a register write (lines 126-128) *)

Lemma address_byte (regAddr : Z) :
  0 <= regAddr < 256 ->
  Z.lor (Z.land regAddr 0x7F) 0x80 = regAddr mod 128 + 128
  /\ Z.lor (regAddr mod 128 + 128) 1
     = regAddr mod 128 + 128 + (if Z.even regAddr then 1 else 0)
  /\ regAddr mod 128 + 128 + (if Z.even regAddr then 1 else 0) < 256.
Proof.
  intros Ha.
  assert (Hall : forallb (fun a =>
            (Z.lor (Z.land a 0x7F) 0x80 =? a mod 128 + 128)
            && (Z.lor (a mod 128 + 128) 1
                =? a mod 128 + 128 + (if Z.even a then 1 else 0))
            && (a mod 128 + 128 + (if Z.even a then 1 else 0) <? 256))
            (zrange (Z.to_nat 256) 0) = true) by (vm_compute; reflexivity).
  rewrite forallb_forall in Hall.
  assert (Hin : In regAddr (zrange (Z.to_nat 256) 0))
    by (apply in_zrange; rewrite Z2Nat.id; lia).
  specialize (Hall regAddr Hin).
  apply andb_prop in Hall. destruct Hall as [H12 H3].
  apply andb_prop in H12. destruct H12 as [H1 H2].
  split; [now apply Z.eqb_eq in H1|].
  split; [now apply Z.eqb_eq in H2 | now apply Z.ltb_lt in H3].
Qed.

Lemma word_of_byte_and_data (msb d : Z) :
  0 <= msb < 256 ->
  Z.lor (Z.shiftl msb 8) (Z.land d 0xFF) = msb * 256 + d mod 256.
Proof.
  intros Hm. rewrite <- u8_land, <- (IntFacts.u8_idem d), (u8_land (Int.u8 d)).
  rewrite word_of_bytes by (try apply IntFacts.u8_range; lia).
  reflexivity.
Qed.

(** X3.  For every register address and 16-bit data, the low word packed by
    [regWrite] carries the address cut to 7 bits with the write flag (bit 15)
    set and the low byte of the data; the high word carries the high byte of
    the data and the same address with bit 0 set -- the next address when the
    address is even, the address itself when it is odd.  Both words lie
    between 0x8000 and 0xFFFF. *)
Theorem regWrite_words (regAddr regData : Z) :
  0 <= regAddr < 256 ->
  0 <= regData < 65536 ->
  lowWord regAddr regData = (regAddr mod 128 + 128) * 256 + regData mod 256
  /\ highWord regAddr regData
     = (regAddr mod 128 + 128 + (if Z.even regAddr then 1 else 0)) * 256
       + regData / 256
  /\ 0x8000 <= lowWord regAddr regData < 0x10000
  /\ 0x8000 <= highWord regAddr regData < 0x10000.
Proof.
  intros Ha Hd.
  destruct (address_byte regAddr Ha) as (Eb & Eb1 & Hb1).
  pose proof (Z.mod_pos_bound regAddr 128 ltac:(lia)) as Ha7.
  pose proof (Z.mod_pos_bound regData 256 ltac:(lia)) as Hlo.
  assert (Hhi : 0 <= regData / 256 < 256).
  { split; [apply Z.div_pos; lia | apply Z.div_lt_upper_bound; lia]. }
  assert (Elow : lowWord regAddr regData
                 = (regAddr mod 128 + 128) * 256 + regData mod 256).
  { unfold lowWord, addr. rewrite Eb.
    rewrite (IntFacts.u16_small (Z.shiftl _ 8))
      by (rewrite Z.shiftl_mul_pow2 by lia; lia).
    rewrite word_of_byte_and_data by lia.
    apply IntFacts.u16_small. lia. }
  assert (Hk : 128 <= regAddr mod 128 + 128
                       + (if Z.even regAddr then 1 else 0) < 256).
  { split; [destruct (Z.even regAddr); lia | exact Hb1]. }
  assert (Ehigh : highWord regAddr regData
                  = (regAddr mod 128 + 128
                     + (if Z.even regAddr then 1 else 0)) * 256
                    + regData / 256).
  { unfold highWord, addr. rewrite Eb.
    rewrite (IntFacts.u16_small (Z.shiftl _ 8))
      by (rewrite Z.shiftl_mul_pow2 by lia; lia).
    replace (Z.lor (Z.shiftl (regAddr mod 128 + 128) 8) 0x100)
      with (Z.shiftl (Z.lor (regAddr mod 128 + 128) 1) 8)
      by (now rewrite Z.shiftl_lor).
    rewrite Eb1.
    rewrite word_of_byte_and_data by lia.
    rewrite Z.shiftr_div_pow2 by lia. change (2 ^ 8) with 256.
    rewrite (Z.mod_small (regData / 256)) by lia.
    apply IntFacts.u16_small. lia. }
  split; [exact Elow|]. split; [exact Ehigh|].
  rewrite Elow, Ehigh. lia.
Qed.

Lemma regWrite_words_witness :
  (0 <= 0x03 < 256 /\ 0 <= 0xBEEF < 65536)
  /\ lowWord 0x03 0xBEEF = (0x03 mod 128 + 128) * 256 + 0xBEEF mod 256
  /\ highWord 0x03 0xBEEF
     = (0x03 mod 128 + 128 + (if Z.even 0x03 then 1 else 0)) * 256
       + 0xBEEF / 256
  /\ 0x8000 <= lowWord 0x03 0xBEEF < 0x10000
  /\ 0x8000 <= highWord 0x03 0xBEEF < 0x10000.
Proof.
  split; [lia|]. apply (regWrite_words 0x03 0xBEEF); lia.
Defined.

(** ** The value a register read returns (lines 97-103) *)

(** X4.  The two bytes shifted in by the second transaction of [regRead] are
    read as a 16-bit two's complement number: the word [msb * 256 + lsb]
    itself when the top bit of the first byte is clear, that word less 65536
    when it is set.  The result is negative exactly when that bit is set. *)
Theorem regRead_twos_complement {D : Type} `{Slave D} (this : ADIS16000)
    (regAddr : Z) (w : world D) :
  exists in1 in2 msb lsb : Z,
    skipn (length (bus w)) (bus (snd (regRead this regAddr w)))
    = [DigitalWrite this.(_CS) LOW;
       Transfer (Int.u8 regAddr) in1; Transfer 0x00 in2;
       DigitalWrite this.(_CS) HIGH; DelayMicroseconds 15;
       DigitalWrite this.(_CS) LOW;
       Transfer 0x00 msb; Transfer 0x00 lsb;
       DigitalWrite this.(_CS) HIGH; DelayMicroseconds 15]
    /\ 0 <= msb < 256 /\ 0 <= lsb < 256
    /\ fst (regRead this regAddr w)
       = (if msb <? 128 then msb * 256 + lsb else msb * 256 + lsb - 65536)
    /\ (fst (regRead this regAddr w) < 0 <-> 128 <= msb).
Proof.
  pose proof (regRead_run this regAddr w) as E. cbv zeta in E.
  rewrite E. clear E. cbn [fst snd bus].
  rewrite skipn_app, skipn_all, Nat.sub_diag. cbn [app skipn].
  eexists _, _, _, _. split; [reflexivity|].
  match goal with |- 0 <= Int.u8 ?a < _ /\ 0 <= Int.u8 ?b < _ /\ _ =>
    pose proof (IntFacts.u8_range a) as Hm;
    pose proof (IntFacts.u8_range b) as Hl;
    generalize dependent (Int.u8 a); generalize dependent (Int.u8 b)
  end.
  intros lsb Hl msb Hm.
  split; [exact Hm|]. split; [exact Hl|].
  rewrite word_of_bytes by assumption.
  assert (Es : Int.s16 (msb * 256 + lsb)
               = if msb <? 128 then msb * 256 + lsb
                 else msb * 256 + lsb - 65536).
  { destruct (Z.ltb_spec msb 128).
    - apply IntFacts.s16_small. lia.
    - unfold Int.s16.
      replace (msb * 256 + lsb + 32768)
        with (msb * 256 + lsb - 32768 + 1 * 65536) by lia.
      rewrite Z.mod_add by lia. rewrite Z.mod_small by lia. lia. }
  split; [exact Es|]. rewrite Es. destruct (Z.ltb_spec msb 128); lia.
Qed.

(** ** The sign adjustment and the outputs of the scaling functions *)

Lemma signedData_int16 (v : Z) :
  -32768 <= v < 32768 ->
  signedData v = if v <? 0 then v + 1 else v.
Proof.
  intros Hv. rewrite <- (IntFacts.s16_small v Hv) at 1.
  rewrite signedData_pattern, (testbit_15 _ (IntFacts.u16_range v)).
  unfold Int.u16. destruct (Z.ltb_spec v 0).
  - rewrite <- (Z.mod_add v 1 65536) by lia.
    rewrite Z.mod_small by lia.
    replace (32768 <=? v + 1 * 65536) with true by lia. lia.
  - rewrite Z.mod_small by lia.
    replace (32768 <=? v) with false by lia. reflexivity.
Qed.

(** X10.  On a sample read as the signed 16-bit number it is, the sign
    adjustment adds 1 to a negative sample and leaves the others alone.  It
    therefore stays within -32767 .. 32767, never reverses the order of two
    samples, and takes two different samples to the same value only for -1
    and 0. *)
Theorem signedData_off_by_one (v v' : Z) :
  -32768 <= v < 32768 ->
  -32768 <= v' < 32768 ->
  signedData v = (if v <? 0 then v + 1 else v)
  /\ -32767 <= signedData v <= 32767
  /\ (v <= v' -> signedData v <= signedData v')
  /\ (v < v' -> signedData v = signedData v' -> v = -1 /\ v' = 0).
Proof.
  intros Hv Hv'.
  rewrite (signedData_int16 v Hv), (signedData_int16 v' Hv').
  destruct (Z.ltb_spec v 0), (Z.ltb_spec v' 0); repeat split; lia.
Qed.

Lemma signedData_off_by_one_witness :
  (-32768 <= -1 < 32768 /\ -32768 <= 0 < 32768 /\ -1 <= 0)
  /\ signedData (-1) = (if -1 <? 0 then -1 + 1 else -1)
  /\ -32767 <= signedData (-1) <= 32767
  /\ signedData (-1) <= signedData 0.
Proof.
  split; [lia|].
  destruct (signedData_off_by_one (-1) 0) as (E & Hr & Hmono & _); [lia|lia|].
  split; [exact E|]. split; [exact Hr|]. apply Hmono. lia.
Defined.

Lemma supply_products_positive :
  all_products_positive (F32.lit 44 100000) = true.
Proof. vm_compute. reflexivity. Qed.

Lemma temp_products_positive :
  all_products_positive (F32.lit 815 10000) = true.
Proof. vm_compute. reflexivity. Qed.

Lemma supply_products_finite :
  all_products_finite (F32.lit 44 100000) = true.
Proof. vm_compute. reflexivity. Qed.

Lemma temp_products_finite :
  all_products_finite (F32.lit 815 10000) = true.
Proof. vm_compute. reflexivity. Qed.

Lemma product_positive (c : spec_float) (s : Z) :
  all_products_positive c = true ->
  1 <= s <= 32767 ->
  positive_float (F32.mul (F32.of_int s) c) = true.
Proof.
  intros Hall Hs. unfold all_products_positive in Hall.
  rewrite forallb_forall in Hall.
  apply Hall, in_zrange. rewrite Z2Nat.id; lia.
Qed.

Lemma product_finite (c : spec_float) (s : Z) :
  all_products_finite c = true ->
  -32767 <= s <= 32767 ->
  finite_float (F32.mul (F32.of_int s) c) = true.
Proof.
  intros Hall Hs. unfold all_products_finite in Hall.
  rewrite forallb_forall in Hall.
  apply Hall, in_zrange. rewrite Z2Nat.id; lia.
Qed.

(** X11.  For every raw sample from 1 to 0x7FFF (top bit clear, not zero)
    the sign adjustment changes nothing and the outputs of [scaleSupply] and
    [scaleTemp] are the sample times 0.00044 and times 0.0815, both above
    zero. *)
Theorem scaling_positive (raw : Z) :
  1 <= raw <= 0x7FFF ->
  scaleSupply raw = F32.mul (F32.of_int raw) (F32.lit 44 100000)
  /\ scaleTemp raw = F32.mul (F32.of_int raw) (F32.lit 815 10000)
  /\ positive_float (scaleSupply raw) = true
  /\ positive_float (scaleTemp raw) = true.
Proof.
  intros Hraw.
  assert (Es : signedData (Int.s16 raw) = raw).
  { rewrite IntFacts.s16_small by lia. rewrite signedData_int16 by lia.
    replace (raw <? 0) with false by lia. reflexivity. }
  unfold scaleSupply, scaleTemp. cbv zeta. rewrite Es.
  split; [reflexivity|]. split; [reflexivity|]. split.
  - apply product_positive; [apply supply_products_positive|lia].
  - apply product_positive; [apply temp_products_positive|lia].
Qed.

Lemma scaling_positive_witness :
  1 <= 1 <= 0x7FFF
  /\ scaleSupply 1 = F32.mul (F32.of_int 1) (F32.lit 44 100000)
  /\ scaleTemp 1 = F32.mul (F32.of_int 1) (F32.lit 815 10000)
  /\ positive_float (scaleSupply 1) = true
  /\ positive_float (scaleTemp 1) = true.
Proof.
  split; [lia|]. apply (scaling_positive 1). lia.
Defined.

(** X12.  Whatever the arguments, none of the four scaling functions returns
    an infinity or a NaN. *)
Theorem scaling_finite (sensorData gRange : Z) :
  finite_float (scaleTime sensorData gRange) = true
  /\ finite_float (scaleFFT sensorData gRange) = true
  /\ finite_float (scaleSupply sensorData) = true
  /\ finite_float (scaleTemp sensorData) = true.
Proof.
  rewrite scaleTime_zero, scaleFFT_zero.
  split; [reflexivity|]. split; [reflexivity|].
  pose proof (IntFacts.s16_range sensorData) as Hs.
  assert (Hr : -32767 <= signedData (Int.s16 sensorData) <= 32767).
  { rewrite signedData_int16 by exact Hs.
    destruct (Z.ltb_spec (Int.s16 sensorData) 0); lia. }
  unfold scaleSupply, scaleTemp. cbv zeta. split.
  - apply product_finite; [apply supply_products_finite|exact Hr].
  - apply product_finite; [apply temp_products_finite|exact Hr].
Qed.

(** ** What the control operations put on the bus (lines 146-171, 211-217) *)

Lemma delay_total_app (l1 l2 : list event) :
  delay_total (l1 ++ l2) = delay_total l1 + delay_total l2.
Proof.
  unfold delay_total. induction l1 as [|e l1 IH]; cbn [app fold_right].
  - reflexivity.
  - rewrite IH. lia.
Qed.

Section Effects.
Context {D : Type} `{Slave D}.
Variable this : ADIS16000.

Lemma regWrite_bytes regAddr regData (w : world D) :
  bytes_out (bus (snd (regWrite this regAddr regData w)))
  = bytes_out (bus w)
    ++ [Int.u8 regData; Int.u8 (Z.shiftr (Int.u16 regData) 8)].
Proof. rewrite regWrite_run. cbn [snd bus]. now rewrite bytes_out_app. Qed.

Lemma regRead_bytes regAddr (w : world D) :
  bytes_out (bus (snd (regRead this regAddr w)))
  = bytes_out (bus w) ++ [Int.u8 regAddr; 0x00; 0x00; 0x00].
Proof. rewrite regRead_run. cbn [snd bus]. now rewrite bytes_out_app. Qed.

Lemma regWrite_delay regAddr regData (w : world D) :
  delay_total (bus (snd (regWrite this regAddr regData w)))
  = delay_total (bus w) + 25.
Proof. rewrite regWrite_run. cbn [snd bus]. now rewrite delay_total_app. Qed.

Lemma regRead_delay regAddr (w : world D) :
  delay_total (bus (snd (regRead this regAddr w)))
  = delay_total (bus w) + 30.
Proof. rewrite regRead_run. cbn [snd bus]. now rewrite delay_total_app. Qed.

End Effects.

Lemma high_byte_of_u8 (z : Z) : Int.u8 (Z.shiftr (Int.u16 (Int.u8 z)) 8) = 0.
Proof.
  rewrite u16_u8, Z.shiftr_div_pow2 by lia.
  pose proof (IntFacts.u8_range z).
  rewrite Z.div_small by (change (2 ^ 8) with 256; lia). reflexivity.
Qed.

(** Runs the first call of a sequence and keeps what it returned, what it
    added to the record of calls and which bytes it shifted out. *)
Ltac step_io :=
  rewrite bind_run; cbv beta;
  lazymatch goal with
  | |- context [regWrite ?t ?a ?d ?w] =>
      let Ev := fresh "Evalue" in
      let Ec := fresh "Ecalls" in
      let Eb := fresh "Ebytes" in
      pose proof (regWrite_value t a d w) as Ev;
      pose proof (regWrite_calls t a d w) as Ec;
      pose proof (regWrite_bytes t a d w) as Eb;
      destruct (regWrite t a d w) as [? ?]; cbn [fst snd] in *
  | |- context [regRead ?t ?a ?w] =>
      let Ec := fresh "Ecalls" in
      let Eb := fresh "Ebytes" in
      pose proof (regRead_calls t a w) as Ec;
      pose proof (regRead_bytes t a w) as Eb;
      destruct (regRead t a w) as [? ?]; cbn [fst snd] in *
  end.

(** Puts together what the steps have left in the context. *)
Ltac gather :=
  repeat match goal with
         | E : calls _ = _ |- _ => rewrite E; clear E
         | E : bytes_out _ = _ |- _ => rewrite E; clear E
         end;
  rewrite ?high_byte_of_u8, ?u16_u8, ?IntFacts.u8_idem, <- ?app_assoc;
  reflexivity.

Section ControlEffects.
Context {D : Type} `{Slave D} `{RegisterMap}.
Variable this : ADIS16000.

(** X5.  [addSensor] returns 1 after two register writes with a wait of 500
    microseconds between them: first 0x01 to the gateway command register,
    then the sensor address (a [uint8_t]) to the command data register.  On
    the bus that is, pulse by pulse: 0x01, 0x00; the 25 and then the 500
    microseconds; the address, 0x00; 25 microseconds. *)
Theorem addSensor_run (sensorAddr : Z) (w : world D) :
  exists in1 in2 in3 in4 : Z,
    fst (addSensor this sensorAddr w) = 1
    /\ calls (snd (addSensor this sensorAddr w))
       = calls w ++ [RegWrite (Int.u8 GLOB_CMD_G) 0x01;
                     RegWrite (Int.u8 CMD_DATA) (Int.u8 sensorAddr)]
    /\ bus (snd (addSensor this sensorAddr w))
       = bus w ++ [DigitalWrite this.(_CS) LOW;
                   Transfer 0x01 in1; Transfer 0x00 in2;
                   DigitalWrite this.(_CS) HIGH;
                   DelayMicroseconds 25;
                   DelayMicroseconds 500;
                   DigitalWrite this.(_CS) LOW;
                   Transfer (Int.u8 sensorAddr) in3; Transfer 0x00 in4;
                   DigitalWrite this.(_CS) HIGH;
                   DelayMicroseconds 25].
Proof.
  unfold addSensor, regWrite, lowWord, highWord, addr. run_bus.
  rewrite !low_byte_of_word, !low_byte_of_high_word.
  rewrite <- !app_assoc.
  repeat first [ rewrite IntFacts.u8_u16 | rewrite IntFacts.u16_idem
               | rewrite u16_u8 | rewrite IntFacts.u8_idem ].
  rewrite <- (u16_u8 sensorAddr), !high_byte_of_u8, u16_u8.
  cbn [app].
  change (Int.u8 (Z.shiftr (Int.u16 1) 8)) with 0.
  change (Int.u8 1) with 1. change (Int.u16 1) with 1.
  eexists _, _, _, _. split; [reflexivity|]. split; reflexivity.
Qed.

(** X6.  [removeSensor] returns 1 after two register writes: the sensor
    address (a [uint8_t]) to the command data register, then 0x100 to the
    gateway command register.  The bytes shifted out are the address, 0x00,
    0x00, 0x01. *)
Theorem removeSensor_run (sensorAddr : Z) (w : world D) :
  fst (removeSensor this sensorAddr w) = 1
  /\ calls (snd (removeSensor this sensorAddr w))
     = calls w ++ [RegWrite (Int.u8 CMD_DATA) (Int.u8 sensorAddr);
                   RegWrite (Int.u8 GLOB_CMD_G) 0x100]
  /\ bytes_out (bus (snd (removeSensor this sensorAddr w)))
     = bytes_out (bus w) ++ [Int.u8 sensorAddr; 0x00; 0x00; 0x01].
Proof.
  unfold removeSensor. cbv zeta. do 2 step_io. rewrite ret_run. cbn [fst snd].
  split; [reflexivity|]. split; gather.
Qed.

(** X7.  [saveGatewaySettings] returns 1 after selecting page 0 and writing
    0x40 to the gateway command register.  [saveSensorSettings] returns 1
    after four register writes: the sensor address to the page register, 0x40
    to the sensor command register, 0 to the page register again -- so page 0
    is the page selected when it returns -- and 0x02 to the gateway command
    register. *)
Theorem save_settings_run (sensorAddr : Z) (w : world D) :
  (fst (saveGatewaySettings this w) = 1
   /\ calls (snd (saveGatewaySettings this w))
      = calls w ++ [RegWrite (Int.u8 PAGE_ID) 0x00;
                    RegWrite (Int.u8 GLOB_CMD_G) 0x40]
   /\ bytes_out (bus (snd (saveGatewaySettings this w)))
      = bytes_out (bus w) ++ [0x00; 0x00; 0x40; 0x00])
  /\ (fst (saveSensorSettings this sensorAddr w) = 1
      /\ calls (snd (saveSensorSettings this sensorAddr w))
         = calls w ++ [RegWrite (Int.u8 PAGE_ID) (Int.u8 sensorAddr);
                       RegWrite (Int.u8 GLOB_CMD_S) 0x40;
                       RegWrite (Int.u8 PAGE_ID) 0x00;
                       RegWrite (Int.u8 GLOB_CMD_G) 0x02]
      /\ bytes_out (bus (snd (saveSensorSettings this sensorAddr w)))
         = bytes_out (bus w)
           ++ [Int.u8 sensorAddr; 0x00; 0x40; 0x00; 0x00; 0x00; 0x02; 0x00]).
Proof.
  split.
  - unfold saveGatewaySettings. do 2 step_io. rewrite ret_run. cbn [fst snd].
    split; [reflexivity|]. split; gather.
  - unfold saveSensorSettings. cbv zeta. do 4 step_io. rewrite ret_run.
    cbn [fst snd]. split; [reflexivity|]. split; gather.
Qed.

(** X8.  [setPeriodicMode] returns 1 after four register writes: the sensor
    address to the page register, the 16-bit interval to the update interval
    register, the scale factor (a [uint8_t]) to the interval scale register
    and 0x800 to the sensor command register.  The bytes shifted out are the
    address, 0x00, the low and the high byte of the interval, the scale
    factor, 0x00, 0x00, 0x08. *)
Theorem setPeriodicMode_run (interval scalefactor sensorAddr : Z)
    (w : world D) :
  fst (setPeriodicMode this interval scalefactor sensorAddr w) = 1
  /\ calls (snd (setPeriodicMode this interval scalefactor sensorAddr w))
     = calls w ++ [RegWrite (Int.u8 PAGE_ID) (Int.u8 sensorAddr);
                   RegWrite (Int.u8 UPDAT_INT) (Int.u16 interval);
                   RegWrite (Int.u8 INT_SCL) (Int.u8 scalefactor);
                   RegWrite (Int.u8 GLOB_CMD_S) 0x800]
  /\ bytes_out (bus (snd (setPeriodicMode this interval scalefactor
                            sensorAddr w)))
     = bytes_out (bus w)
       ++ [Int.u8 sensorAddr; 0x00;
           Int.u8 interval; Int.u8 (Z.shiftr (Int.u16 interval) 8);
           Int.u8 scalefactor; 0x00;
           0x00; 0x08].
Proof.
  unfold setPeriodicMode. cbv zeta. do 4 step_io. rewrite ret_run.
  cbn [fst snd]. split; [reflexivity|].
  split.
  - repeat match goal with E : calls _ = _ |- _ => rewrite E; clear E end.
    rewrite ?u16_u8, ?IntFacts.u16_idem, <- ?app_assoc. reflexivity.
  - repeat match goal with E : bytes_out _ = _ |- _ => rewrite E; clear E end.
    rewrite ?high_byte_of_u8, ?IntFacts.u8_idem, ?IntFacts.u16_idem,
      ?IntFacts.u8_u16, <- ?app_assoc.
    reflexivity.
Qed.

(** X9.  [setDataReady] returns a value for every selector: the last test
    (line 207) holds for every selector that reaches it, so the end of the
    function is never reached without a [return].  The selector counts as the
    [uint8_t] it is converted to: the value returned is 1 or 2 when that is 1
    or 2, and 0 otherwise, after two register writes in the first two cases
    and one register write in the last. *)
Theorem setDataReady_always_returns (dio : Z) (w : world D) :
  fst (setDataReady this dio w)
  = Some (if Int.u8 dio =? 1 then 1 else if Int.u8 dio =? 2 then 2 else 0)
  /\ count_writes (calls (snd (setDataReady this dio w)))
     = (count_writes (calls w)
        + (if ((Int.u8 dio =? 1) || (Int.u8 dio =? 2))%Z then 2 else 1))%nat
  /\ count_reads (calls (snd (setDataReady this dio w)))
     = count_reads (calls w).
Proof.
  unfold setDataReady. cbv zeta. step_io.
  destruct (Z.eqb_spec (Int.u8 dio) 1) as [E1|N1].
  - step_io. rewrite ret_run. cbn [fst snd orb]. rewrite E1.
    split; [reflexivity|].
    repeat match goal with E : calls _ = _ |- _ => rewrite E; clear E end.
    rewrite !count_writes_app, !count_reads_app. cbn. split; lia.
  - destruct (Z.eqb_spec (Int.u8 dio) 2) as [E2|N2].
    + step_io. rewrite ret_run. cbn [fst snd orb]. rewrite E2.
      split; [reflexivity|].
      repeat match goal with E : calls _ = _ |- _ => rewrite E; clear E end.
      rewrite !count_writes_app, !count_reads_app. cbn. split; lia.
    + cbn [negb orb Z.eqb]. rewrite ret_run. cbn [fst snd].
      split; [reflexivity|].
      repeat match goal with E : calls _ = _ |- _ => rewrite E; clear E end.
      rewrite !count_writes_app, !count_reads_app. cbn. split; lia.
Qed.

End ControlEffects.

(** ** Buffer retrieval: what happens before the array is overrun *)

Section BufferEffects.
Context {D : Type} `{Slave D} `{RegisterMap}.
Variable this : ADIS16000.

(** X13.  For every sample index, sensor address and device, [readFFT] makes
    its two writes and two reads and then stops at the store of the Y sample
    to index 2 of its 2-element array: it never hands a result array back.
    The bytes shifted out are the sensor address, 0x00, the sample index,
    0x00, and for each read the register address and three bytes 0x00. *)
Theorem readFFT_stops_at_index_2 (sample sensorAddr : Z) (w : world D) :
  fst (readFFT this sample sensorAddr w) = OutOfBounds 2
  /\ bytes_out (bus (snd (readFFT this sample sensorAddr w)))
     = bytes_out (bus w)
       ++ [Int.u8 sensorAddr; 0x00; Int.u8 sample; 0x00;
           Int.u8 X_BUF; 0x00; 0x00; 0x00;
           Int.u8 Y_BUF; 0x00; 0x00; 0x00].
Proof.
  unfold readFFT. cbv zeta. do 3 step_io.
  rewrite store_inside by (cbn [replicate length]; lia).
  step_io.
  rewrite store_outside by (rewrite length_insert; cbn [replicate length]; lia).
  rewrite ret_run. cbn [fst snd]. split; [reflexivity|gather].
Qed.



End BufferEffects.

(** ** The waits each operation asks for *)

Section Waits.
Context {D : Type} `{Slave D} `{RegisterMap}.
Variable this : ADIS16000.

Lemma waits_ret {A} (a : A) : waits (D := D) 0 (ret a).
Proof. intros w. cbn. lia. Qed.

Lemma waits_bind {A B} (a b : Z) (m : M D A) (k : A -> M D B) :
  waits a m -> (forall x, waits b (k x)) -> waits (a + b) (bind m k).
Proof.
  intros Hm Hk w. rewrite bind_run, Hk, Hm. lia.
Qed.

Lemma waits_emit (e : event) : waits (D := D) (wait_of e) (emit e).
Proof.
  intros w. cbn [emit snd bus]. rewrite delay_total_app. cbn. lia.
Qed.

Lemma waits_digitalWrite (pin : Z) (l : level) : waits 0 (digitalWrite pin l).
Proof.
  intros w. cbn [digitalWrite snd bus]. rewrite delay_total_app. cbn. lia.
Qed.

Lemma waits_regWrite (regAddr regData : Z) :
  waits 25 (regWrite this regAddr regData).
Proof. intros w. apply regWrite_delay. Qed.

Lemma waits_regRead (regAddr : Z) : waits 30 (regRead this regAddr).
Proof. intros w. apply regRead_delay. Qed.

Lemma waits_eq {A} (a b : Z) (m : M D A) : waits a m -> a = b -> waits b m.
Proof. now intros Hm <-. Qed.

(** Adds up the waits of a sequence of calls. *)
Ltac add_waits :=
  lazymatch goal with
  | |- waits _ (bind _ _) =>
      eapply waits_bind; [add_waits | intros ?; add_waits]
  | |- waits _ (ret _) => apply waits_ret
  | |- waits _ (regWrite _ _ _) => apply waits_regWrite
  | |- waits _ (regRead _ _) => apply waits_regRead
  | |- waits _ (emit _) => apply waits_emit
  | |- waits _ (digitalWrite _ _) => apply waits_digitalWrite
  end.

Ltac total_wait := cbv zeta; eapply waits_eq; [add_waits | cbn [wait_of]; lia].

(** X15.  The waits the driver asks for, added up per call and whatever the
    device does: 30 microseconds for a register read and 25 for a register
    write; 100 ms and then the settle delay (a [uint8_t], so the delay asked
    for modulo 256) for a reset; 550 microseconds for adding a sensor, 50 for
    removing one, 50 and 100 for saving the gateway and the sensor settings,
    100 for setting the periodic mode, 50 for a valid data-ready selector and
    25 for any other, 110 for reading one FFT sample; none for setting up the
    bus. *)
Theorem waits_per_call (w : world D) (ms regAddr regData sensorAddr interval
                                      scalefactor sample dio : Z) :
  let added {A} (m : M D A) :=
    delay_total (bus (snd (m w))) - delay_total (bus w) in
  added (regRead this regAddr) = 30
  /\ added (regWrite this regAddr regData) = 25
  /\ added (resetDUT this ms) = 1000 * 100 + 1000 * (ms mod 256)
  /\ added configSPI = 0
  /\ added (addSensor this sensorAddr) = 25 + 500 + 25
  /\ added (removeSensor this sensorAddr) = 2 * 25
  /\ added (saveGatewaySettings this) = 2 * 25
  /\ added (saveSensorSettings this sensorAddr) = 4 * 25
  /\ added (setPeriodicMode this interval scalefactor sensorAddr) = 4 * 25
  /\ added (setDataReady this dio)
     = (if (Int.u8 dio =? 1) || (Int.u8 dio =? 2) then 2 * 25 else 25)
  /\ added (readFFT this sample sensorAddr) = 2 * 25 + 2 * 30.
Proof.
  intros added. subst added. cbv beta.
  assert (Hadd : forall A (m : M D A) k,
             waits k m ->
             delay_total (bus (snd (m w))) - delay_total (bus w) = k).
  { intros A m k Hm. rewrite Hm. lia. }
  repeat split; apply Hadd.
  - apply waits_regRead.
  - apply waits_regWrite.
  - unfold resetDUT, delay. cbv zeta. eapply waits_eq; [add_waits|].
    cbn [wait_of]. unfold Int.u8. lia.
  - unfold configSPI. total_wait.
  - unfold addSensor, delayMicroseconds. total_wait.
  - unfold removeSensor. total_wait.
  - unfold saveGatewaySettings. total_wait.
  - unfold saveSensorSettings. total_wait.
  - unfold setPeriodicMode. total_wait.
  - unfold setDataReady. cbv zeta.
    destruct (Int.u8 dio =? 1); [cbn [orb]; total_wait|].
    destruct (Int.u8 dio =? 2); [cbn [orb]; total_wait|].
    cbn [negb orb Z.eqb]. total_wait.
  - unfold readFFT. cbv zeta.
    eapply waits_eq.
    + do 3 (eapply waits_bind; [add_waits|intros ?]).
      rewrite store_inside by (cbn [replicate length]; lia).
      eapply waits_bind; [add_waits|intros ?].
      rewrite store_outside
        by (rewrite length_insert; cbn [replicate length]; lia).
      apply waits_ret.
    + lia.
Qed.

End Waits.

(** ** Lines that are high stay high *)

Section KeepsHigh.
Context {D : Type} `{Slave D} `{RegisterMap}.
Variable this : ADIS16000.
Variable pin : Z.

Lemma keeps_high_ret {A} (a : A) : keeps_high (D := D) pin (ret a).
Proof. intros w Hw. exact Hw. Qed.

Lemma keeps_high_bind {A B} (m : M D A) (k : A -> M D B) :
  keeps_high pin m -> (forall x, keeps_high pin (k x)) ->
  keeps_high pin (bind m k).
Proof. intros Hm Hk w Hw. rewrite bind_run. apply Hk, Hm, Hw. Qed.

Lemma keeps_high_emit (e : event) : keeps_high (D := D) pin (emit e).
Proof. intros w Hw. exact Hw. Qed.

Lemma keeps_high_pulse (line : Z) (p : gmap Z level) :
  p !! pin = Some HIGH ->
  <[line := HIGH]> (<[line := LOW]> p) !! pin = Some HIGH.
Proof.
  intros Hp. destruct (Z.eq_dec line pin) as [->|Hne].
  - apply lookup_insert_eq.
  - now rewrite !lookup_insert_ne by exact Hne.
Qed.

Lemma keeps_high_regWrite (regAddr regData : Z) :
  keeps_high pin (regWrite this regAddr regData).
Proof.
  intros w Hw. rewrite regWrite_run. cbv zeta. cbn [snd pins].
  now apply keeps_high_pulse.
Qed.

Lemma keeps_high_regRead (regAddr : Z) :
  keeps_high pin (regRead this regAddr).
Proof.
  intros w Hw. rewrite regRead_run. cbv zeta. cbn [snd pins].
  now do 2 apply keeps_high_pulse.
Qed.

Lemma keeps_high_resetDUT (ms : Z) : keeps_high pin (resetDUT this ms).
Proof.
  intros w Hw. unfold resetDUT. run_bus. now apply keeps_high_pulse.
Qed.

Ltac still_high :=
  cbv zeta;
  repeat lazymatch goal with
         | |- keeps_high _ (bind _ _) => apply keeps_high_bind; [|intros ?]
         | |- keeps_high _ (ret _) => apply keeps_high_ret
         | |- keeps_high _ (regWrite _ _ _) => apply keeps_high_regWrite
         | |- keeps_high _ (regRead _ _) => apply keeps_high_regRead
         | |- keeps_high _ (emit _) => apply keeps_high_emit
         end.

Lemma keeps_high_readFFTBuffer_loop (n : nat) (i : Z)
    (buffer : list (option Z)) :
  keeps_high pin (readFFTBuffer_loop this n i buffer).
Proof.
  revert i buffer. induction n as [|n IH]; intros i buffer;
    cbn [readFFTBuffer_loop].
  - apply keeps_high_ret.
  - apply keeps_high_bind; [apply keeps_high_regRead|intros x].
    destruct (store buffer i x); [|apply keeps_high_ret].
    apply keeps_high_bind; [apply keeps_high_regRead|intros y].
    destruct (store _ _ y); [apply IH|apply keeps_high_ret].
Qed.

Lemma keeps_high_perform (op : operation) : keeps_high pin (perform this op).
Proof.
  destruct op; cbn [perform];
    (apply keeps_high_bind; [|intros ?; apply keeps_high_ret]).
  - apply keeps_high_resetDUT.
  - unfold configSPI. still_high.
  - apply keeps_high_regRead.
  - apply keeps_high_regWrite.
  - unfold addSensor, delayMicroseconds. still_high.
  - unfold removeSensor. still_high.
  - unfold saveGatewaySettings. still_high.
  - unfold saveSensorSettings. still_high.
  - unfold readFFTBuffer. cbv zeta.
    do 4 (apply keeps_high_bind; [apply keeps_high_regWrite|intros _]).
    apply keeps_high_readFFTBuffer_loop.
  - unfold readFFT. cbv zeta.
    do 3 (apply keeps_high_bind; [still_high|intros ?]).
    destruct (store _ _ _); [|apply keeps_high_ret].
    apply keeps_high_bind; [still_high|intros ?].
    destruct (store _ _ _); apply keeps_high_ret.
  - unfold setDataReady. cbv zeta.
    apply keeps_high_bind; [apply keeps_high_regWrite|intros _].
    destruct (Int.u8 dio =? 1); [still_high|].
    destruct (Int.u8 dio =? 2); [still_high|].
    cbn [negb orb Z.eqb]. apply keeps_high_ret.
  - unfold setPeriodicMode. still_high.
Qed.

Lemma keeps_high_perform_all (ops : list operation) :
  keeps_high pin (perform_all this ops).
Proof.
  induction ops as [|op ops IH]; cbn [perform_all].
  - apply keeps_high_ret.
  - apply keeps_high_bind; [apply keeps_high_perform | intros _; exact IH].
Qed.

End KeepsHigh.

(** X2.  No operation of the driver leaves low a line that was high when it
    was called, whichever line that is; the reset pulse ends with the reset
    line high again.  So the reset line, which the constructor leaves high,
    is high after any sequence of operations on the driver it built. *)
Theorem lines_stay_high {D : Type} `{Slave D} `{RegisterMap}
    (CS RST pin : Z) (w0 w : world D) (op : operation)
    (ops : list operation) :
  let this := fst (ADIS16000_new CS RST w0) in
  let w1 := snd (ADIS16000_new CS RST w0) in
  (pins w !! pin = Some HIGH ->
   pins (snd (perform this op w)) !! pin = Some HIGH)
  /\ pins (snd (perform_all this ops w1)) !! this.(_RST) = Some HIGH.
Proof.
  intros this w1. split.
  - apply keeps_high_perform.
  - apply keeps_high_perform_all.
    destruct (ADIS16000_new_run CS RST w0) as [Ethis Epins].
    subst this w1. rewrite Epins, Ethis. cbn [_RST]. apply lookup_insert_eq.
Qed.

Lemma lines_stay_high_witness :
  pins Mock.ready !! Mock.RST = Some HIGH
  /\ pins (snd (perform Mock.driver (Op_resetDUT 50) Mock.ready)) !! Mock.RST
     = Some HIGH
  /\ pins (snd (perform_all Mock.driver
                  [Op_resetDUT 50; Op_readFFT 5 1; Op_addSensor 3]
                  Mock.ready)) !! Mock.RST = Some HIGH.
Proof.
  assert (Hready : pins Mock.ready !! Mock.RST = Some HIGH) by reflexivity.
  destruct (lines_stay_high 10 9 Mock.RST Mock.power_up Mock.ready
              (Op_resetDUT 50) [Op_resetDUT 50; Op_readFFT 5 1; Op_addSensor 3])
    as [Hop Hall].
  split; [exact Hready|]. split; [exact (Hop Hready)|exact Hall].
Defined.

(** ** What the register map changes outside the processor *)

Lemma same_outside_refl {D : Type} (w : world D) : same_outside w w.
Proof. repeat split. Qed.

Section Alike.
Context {D : Type} `{Slave D}.
Variable this : ADIS16000.

Lemma alike_ret {A} (a : A) : alike (D := D) (ret a) (ret a).
Proof. intros w1 w2 Hw. split; [reflexivity|exact Hw]. Qed.

Lemma alike_bind {A B} (m1 m2 : M D A) (k1 k2 : A -> M D B) :
  alike m1 m2 -> (forall a, alike (k1 a) (k2 a)) ->
  alike (bind m1 k1) (bind m2 k2).
Proof.
  intros Hm Hk w1 w2 Hw. rewrite !bind_run.
  destruct (Hm w1 w2 Hw) as [Ea Hw']. rewrite Ea. now apply Hk.
Qed.

Lemma alike_emit (e : event) : alike (D := D) (emit e) (emit e).
Proof.
  intros w1 w2 (Ep & Es & Eb). split; [reflexivity|].
  unfold same_outside. cbn [emit snd pins slave bus].
  now rewrite Ep, Es, Eb.
Qed.

Lemma alike_digitalWrite (pin : Z) (l : level) :
  alike (digitalWrite pin l) (digitalWrite pin l).
Proof.
  intros w1 w2 (Ep & Es & Eb). split; [reflexivity|].
  unfold same_outside. cbn [digitalWrite snd pins slave bus].
  now rewrite Ep, Es, Eb.
Qed.

(** Two register writes of the same data are alike, whatever the two
    addresses. *)
Lemma alike_regWrite (regAddr regAddr' regData : Z) :
  alike (regWrite this regAddr regData) (regWrite this regAddr' regData).
Proof.
  intros w1 w2 (Ep & Es & Eb). rewrite !regWrite_run. cbv zeta.
  cbn [fst snd]. unfold same_outside. cbn [pins slave bus].
  now rewrite Ep, Es, Eb.
Qed.

Lemma alike_regRead (regAddr : Z) :
  alike (regRead this regAddr) (regRead this regAddr).
Proof.
  intros w1 w2 (Ep & Es & Eb). rewrite !regRead_run. cbv zeta.
  cbn [fst snd]. unfold same_outside. cbn [pins slave bus].
  now rewrite Ep, Es, Eb.
Qed.

Ltac same_outside_steps :=
  cbv zeta;
  repeat lazymatch goal with
         | |- alike (bind _ _) (bind _ _) => apply alike_bind; [|intros ?]
         | |- alike (ret _) (ret _) => apply alike_ret
         | |- alike (regWrite _ _ _) (regWrite _ _ _) => apply alike_regWrite
         | |- alike (regRead _ _) (regRead _ _) => apply alike_regRead
         | |- alike (emit _) (emit _) => apply alike_emit
         | |- alike (digitalWrite _ _) (digitalWrite _ _) =>
             apply alike_digitalWrite
         end.

Variables R1 R2 : RegisterMap.

Lemma alike_perform (op : operation) :
  reads_buffers op = false ->
  alike (@perform D _ R1 this op) (@perform D _ R2 this op).
Proof.
  intros Hop. destruct op; try discriminate Hop; cbn [perform];
    (apply alike_bind; [|intros ?; apply alike_ret]).
  - unfold resetDUT, delay. same_outside_steps.
  - unfold configSPI. same_outside_steps.
  - apply alike_regRead.
  - apply alike_regWrite.
  - unfold addSensor, delayMicroseconds. same_outside_steps.
  - unfold removeSensor. same_outside_steps.
  - unfold saveGatewaySettings. same_outside_steps.
  - unfold saveSensorSettings. same_outside_steps.
  - unfold setDataReady. cbv zeta.
    apply alike_bind; [apply alike_regWrite|intros _].
    destruct (Int.u8 dio =? 1); [same_outside_steps|].
    destruct (Int.u8 dio =? 2); [same_outside_steps|].
    cbn [negb orb Z.eqb]. apply alike_ret.
  - unfold setPeriodicMode. same_outside_steps.
Qed.

Lemma alike_perform_all (ops : list operation) :
  forallb (fun op => negb (reads_buffers op)) ops = true ->
  alike (@perform_all D _ R1 this ops) (@perform_all D _ R2 this ops).
Proof.
  induction ops as [|op ops IH]; cbn [perform_all forallb]; intros Hops.
  - apply alike_ret.
  - apply andb_prop in Hops. destruct Hops as [Hop Hops].
    apply alike_bind.
    + apply alike_perform. now destruct (reads_buffers op).
    + intros _. now apply IH.
Qed.

End Alike.

(** X16.  The register addresses of the register map reach the device only
    through the reads of the X and Y buffers.  For any sequence of operations
    among which there is neither [readFFT] nor [readFFTBuffer], the pins, the
    device and the bus log end up the same under any two register maps: the
    writes to the page, command, pointer, GPIO and interval registers put
    their data on the bus and not their address. *)
Theorem register_map_unseen {D : Type} (S : Slave D) (R1 R2 : RegisterMap)
    (this : ADIS16000) (ops : list operation) (w : world D) :
  forallb (fun op => negb (reads_buffers op)) ops = true ->
  pins (snd (@perform_all D S R1 this ops w))
  = pins (snd (@perform_all D S R2 this ops w))
  /\ slave (snd (@perform_all D S R1 this ops w))
     = slave (snd (@perform_all D S R2 this ops w))
  /\ bus (snd (@perform_all D S R1 this ops w))
     = bus (snd (@perform_all D S R2 this ops w)).
Proof.
  intros Hops.
  apply (alike_perform_all this R1 R2 ops Hops w w (same_outside_refl w)).
Qed.

Lemma register_map_unseen_witness :
  let other :=
    {| PAGE_ID := 0x40; GLOB_CMD_G := 0x42; GLOB_CMD_S := 0x44;
       CMD_DATA := 0x46; BUF_PNTR := 0x48; X_BUF := 0x4A; Y_BUF := 0x4C;
       GPO_CTRL := 0x4E; UPDAT_INT := 0x50; INT_SCL := 0x52 |} in
  let ops := [Op_addSensor 3; Op_setPeriodicMode 0x1234 2 3;
              Op_saveSensorSettings 3; Op_setDataReady 1] in
  forallb (fun op => negb (reads_buffers op)) ops = true
  /\ pins (snd (@perform_all _ _ Mock.registers Mock.driver ops Mock.ready))
     = pins (snd (@perform_all _ _ other Mock.driver ops Mock.ready))
  /\ slave (snd (@perform_all _ _ Mock.registers Mock.driver ops Mock.ready))
     = slave (snd (@perform_all _ _ other Mock.driver ops Mock.ready))
  /\ bus (snd (@perform_all _ _ Mock.registers Mock.driver ops Mock.ready))
     = bus (snd (@perform_all _ _ other Mock.driver ops Mock.ready)).
Proof.
  intros other ops. split; [reflexivity|].
  apply (register_map_unseen Mock.device_slave Mock.registers other
           Mock.driver ops Mock.ready).
  reflexivity.
Defined.
